(** * crewAI: memory facade, embedding configurator and crew evaluator

    A shallow embedding of

    - [src/crewai/memory/memory.py]                                  ([Memory]),
    - [src/crewai/utilities/embedding_configurator.py]               ([EmbeddingConfigurator]),
    - [src/crewai/utilities/evaluators/crew_evaluator_handler.py]    ([CrewEvaluator]),

    followed by the properties of these three adapters.

    Conventions of the embedding.
    - Python values of type [Any] are the inductive [pyval]; a
      [Dict[str, Any]] is an insertion-ordered association list with
      unique keys ([pydict]).
    - Python [float]s are idealised as exact rationals ([Qc]): rounding
      of IEEE arithmetic is not modelled.
    - A call that may raise returns a [result]; exception messages built
      by f-strings are kept as templates ([msg_part]) instead of being
      rendered to characters.
    - Mutable objects that are shared (the caller's metadata dict, the
      class-level score tables) live in explicit state that is threaded
      through the calls. *)

From Stdlib Require Import ZArith QArith Qcanon String List Permutation Lia.
From stdpp Require Import base list.
Import ListNotations.

Set Warnings "-register-all".
Local Open Scope string_scope.
Local Open Scope Z_scope.
Local Open Scope list_scope.

(* ===================================================================== *)
(** * Python values, exceptions and dictionaries                          *)
(* ===================================================================== *)

Module Py.

(** Values of type [Any].  [PEmbFn c kw] is an instance of an
    [EmbeddingFunction] class named [c] built from the keyword
    arguments [kw]; [PFunc b] is a callable of no argument that
    returns [v] when [b = inl v] and raises an exception of message [m]
    when [b = inr m]; [PObject] is any other opaque object (a session
    handle, ...), without attributes of interest. *)
Inductive pyval : Type :=
| PNone
| PBool (b : bool)
| PInt (z : Z)
| PFloat (q : Qc)
| PStr (s : string)
| PList (l : list pyval)
| PDict (d : list (string * pyval))
| PEmbFn (cls : string) (kwargs : list (string * pyval))
| PFunc (body : pyval + string)
| PObject (id : nat).

Abbreviation pydict := (list (string * pyval)).

Inductive exn_kind : Type :=
| Exception | ValueError | TypeError | AttributeError | ImportError
| IndexError | ZeroDivisionError.

(** An f-string, kept as a template. *)
Inductive msg_part : Type :=
| Lit (s : string)              (* literal text *)
| FmtVal (v : pyval)            (* {v}: str(v) *)
| FmtKeys (ks : list string)    (* {list(d.keys())} *)
| FmtMsg (m : list msg_part).   (* {str(e)} of a caught exception *)

Record exn : Type := Raise { kind : exn_kind; message : list msg_part }.

Inductive result (A : Type) : Type :=
| Ok (a : A)
| Err (e : exn).
Arguments Ok {A} a.
Arguments Err {A} e.

Definition bind {A B} (r : result A) (k : A -> result B) : result B :=
  match r with
  | Ok a => k a
  | Err e => Err e
  end.

(** [bool(v)]. *)
Definition truthy (v : pyval) : bool :=
  match v with
  | PNone => false
  | PBool b => b
  | PInt z => negb (z =? 0)
  | PFloat q => negb (Qeq_bool q 0)
  | PStr s => negb (String.eqb s "")
  | PList l => match l with [] => false | _ => true end
  | PDict d => match d with [] => false | _ => true end
  | PEmbFn _ _ | PFunc _ | PObject _ => true
  end.

(** [a or b]. *)
Definition py_or (a b : pyval) : pyval := if truthy a then a else b.

Definition type_name (v : pyval) : string :=
  match v with
  | PNone => "NoneType"
  | PBool _ => "bool"
  | PInt _ => "int"
  | PFloat _ => "float"
  | PStr _ => "str"
  | PList _ => "list"
  | PDict _ => "dict"
  | PEmbFn c _ => c
  | PFunc _ => "function"
  | PObject _ => "object"
  end.

(** ** Insertion-ordered dictionaries *)

Section Dict.
Context {K V : Type} (eqb : K -> K -> bool).

Fixpoint dict_get (k : K) (d : list (K * V)) : option V :=
  match d with
  | [] => None
  | (k', v) :: d' => if eqb k k' then Some v else dict_get k d'
  end.

(** [d[k] = v]: overwrite in place, or append a new key. *)
Fixpoint dict_set (k : K) (v : V) (d : list (K * V)) : list (K * V) :=
  match d with
  | [] => [(k, v)]
  | (k', v') :: d' =>
      if eqb k k' then (k', v) :: d' else (k', v') :: dict_set k v d'
  end.

Definition dict_keys (d : list (K * V)) : list K := map fst d.
Definition dict_values (d : list (K * V)) : list V := map snd d.
End Dict.

Definition sget : string -> pydict -> option pyval := dict_get String.eqb.
Definition sset : string -> pyval -> pydict -> pydict := dict_set String.eqb.

(** [o.get(key, default)] on a value of type [Any]: only a dict has
    the method. *)
Definition py_get (o : pyval) (key : string) (default : pyval) : result pyval :=
  match o with
  | PDict d => Ok (match sget key d with Some v => v | None => default end)
  | _ =>
      Err (Raise AttributeError
             [Lit "'"; Lit (type_name o); Lit "' object has no attribute 'get'"])
  end.

(** [isinstance(v, str) and v == s], as used by [v == "..."]. *)
Definition eq_str (v : pyval) (s : string) : bool :=
  match v with
  | PStr s' => String.eqb s' s
  | _ => false
  end.

(** Lists and dicts have no hash. *)
Definition hashable (v : pyval) : bool :=
  match v with
  | PList _ | PDict _ => false
  | _ => true
  end.

Declare Scope py_scope.
Delimit Scope py_scope with py.
Notation "x <- e ;; k" := (bind e (fun x => k))
  (at level 100, e at next level, right associativity) : py_scope.

End Py.

(* ===================================================================== *)
(** * memory/memory.py                                                    *)
(* ===================================================================== *)

Module Memory.
Import Py.

(** The metadata dict is a mutable object that caller and callee share:
    dict objects live in a store and are passed by reference. *)
Abbreviation ref := nat.
Abbreviation store := (list pydict).

(** [{}]: a new dict object. *)
Definition new_dict (h : store) : ref * store := (List.length h, h ++ [[]]).

(** [bool(d)] for the dict object at [r]. *)
Definition dict_truthy (h : store) (r : ref) : bool :=
  match h !! r with
  | Some (_ :: _) => true
  | _ => false
  end.

(** The storage backend ([RAGStorage] or anything else): an interface.
    Both methods may change the backend, may write to the dict objects
    they can reach, and may raise. *)
Class Storage (S : Type) : Type := {
  storage_save : S -> pyval -> ref -> store -> store * S * result unit;
  storage_search : S -> string -> Z -> Qc -> store -> store * S * result (list pyval)
}.

Record Memory (S : Type) : Type := { storage : S }.
Arguments storage {S} _.

(** The contents of the dict that the caller passes ([None]: no dict). *)
Definition given (h : store) (metadata : option ref) : option pydict :=
  match metadata with
  | Some r => h !! r
  | None => Some []
  end.

Definition with_storage {S A} (o : store * S * result A) : store * Memory S * result A :=
  let '(h, s, r) := o in (h, {| storage := s |}, r).

Definition save {S} `{Storage S} (self : Memory S)
    (value : pyval) (metadata : option ref) (agent : option string)
    (h : store) : store * Memory S * result unit :=
  (* metadata = metadata or {} *)
  let '(metadata, h) :=
    match metadata with
    | Some r => if dict_truthy h r then (r, h) else new_dict h
    | None => new_dict h
    end in
  (* if agent: metadata["agent"] = agent *)
  let h :=
    match agent with
    | Some a =>
        if truthy (PStr a) then alter (sset "agent" (PStr a)) metadata h else h
    | None => h
    end in
  with_storage (storage_save (storage self) value metadata h).

Definition default_limit : Z := 3.
Definition default_score_threshold : Qc := Q2Qc (35 # 100).

Definition search {S} `{Storage S} (self : Memory S)
    (query : string) (limit : option Z) (score_threshold : option Qc)
    (h : store) : store * Memory S * result (list pyval) :=
  let limit := default default_limit limit in
  let score_threshold := default default_score_threshold score_threshold in
  with_storage (storage_search (storage self) query limit score_threshold h).

(** A backend that only records what it is given: every [save] with
    the reference and the contents of the dict at the time of the call,
    every [search] with its arguments.  It finds nothing. *)
Record Recorder : Type := {
  saved : list (pyval * ref * option pydict);
  searched : list (string * Z * Qc)
}.

#[export] Instance Recorder_Storage : Storage Recorder := {
  storage_save s value metadata h :=
    (h, {| saved := saved s ++ [(value, metadata, h !! metadata)];
           searched := searched s |}, Ok tt);
  storage_search s query limit score_threshold h :=
    (h, {| saved := saved s;
           searched := searched s ++ [(query, limit, score_threshold)] |}, Ok [])
}.

Definition empty_recorder : Memory Recorder :=
  {| storage := {| saved := []; searched := [] |} |}.

End Memory.


(* ===================================================================== *)
(** * utilities/embedding_configurator.py                                 *)
(* ===================================================================== *)

Module EmbeddingConfigurator.
Import Py.
Local Open Scope py_scope.

(** What the code reads of [urllib.parse.urlparse(url)]. *)
Record ParseResult : Type := { scheme : string; netloc : string }.

(** A call through the dispatch table: the function and its positional
    arguments. *)
Definition call_log : Type := list (string * list pyval).

(** A bound configurator method, with its name. *)
Record configurator : Type := {
  fn_name : string;
  fn_call : list pyval -> result pyval
}.

Record EmbeddingConfigurator : Type := {
  embedding_functions : list (string * configurator)
}.

Definition arity_error (name : string) : exn :=
  Raise TypeError [Lit name; Lit "() called with a wrong number of positional arguments"].

Definition takes1 (name : string) (f : pyval -> result pyval) : configurator :=
  {| fn_name := name;
     fn_call args :=
       match args with
       | [a] => f a
       | _ => Err (arity_error name)
       end |}.

Definition takes2 (name : string) (f : pyval -> pyval -> result pyval) : configurator :=
  {| fn_name := name;
     fn_call args :=
       match args with
       | [a; b] => f a b
       | _ => Err (arity_error name)
       end |}.

Definition default_ollama_url : string := "http://localhost:11434/api/embeddings".

(** The providers, in the order of the dispatch table. *)
Definition supported_providers : list string :=
  ["openai"; "azure"; "ollama"; "vertexai"; "google"; "cohere"; "voyageai";
   "bedrock"; "huggingface"; "watson"; "custom"].

(** The first truthy value among the URL keys in their order of
    priority, or the default URL. *)
Definition url_by_priority (config : pydict) : pyval :=
  default (PStr default_ollama_url)
    (List.find truthy
       (map (fun key => default PNone (sget key config))
            ["url"; "api_url"; "base_url"; "api_base"])).

(** The ["config"] entry of an embedder configuration is absent or is
    a dict with the contents [config]. *)
Definition config_entry (embedder_config : pydict) (config : pydict) : Prop :=
  sget "config" embedder_config = Some (PDict config)
  \/ (sget "config" embedder_config = None /\ config = []).

Section Configurators.

(** The process environment and the libraries the module calls:
    [os.getenv], [urllib.parse.urlparse], whether [ibm_watsonx_ai] can be
    imported, and chromadb's [validate_embedding_function] ([Some m]:
    it raises with message [m]).  The constructors of the SDK's
    embedding functions are kept symbolic: [PEmbFn c kw] is the object
    that calling [c] with the keyword arguments [kw] builds. *)
Variable getenv : string -> option string.
Variable urlparse : pyval -> result ParseResult.
Variable watson_installed : bool.
Variable validate_embedding_function : pyval -> option (list msg_part).

Definition os_getenv (name : string) : pyval :=
  match getenv name with
  | Some v => PStr v
  | None => PNone
  end.

Definition _validate_url (url : pyval) : result pyval :=
  let attempt :=
    result <- urlparse url ;;
    if truthy (PStr (scheme result)) && truthy (PStr (netloc result))
    then Ok url
    else Err (Raise ValueError [Lit "Invalid URL format: "; FmtVal url]) in
  (* except Exception as e *)
  match attempt with
  | Ok v => Ok v
  | Err e => Err (Raise ValueError [Lit "Invalid URL: "; FmtMsg (message e)])
  end.

Definition _create_default_embedding_function : result pyval :=
  Ok (PEmbFn "OpenAIEmbeddingFunction"
        [("api_key", os_getenv "OPENAI_API_KEY");
         ("model_name", PStr "text-embedding-3-small")]).

Definition _configure_openai (config model_name : pyval) : result pyval :=
  api_key <- py_get config "api_key" PNone ;;
  let api_key := if truthy api_key then api_key else os_getenv "OPENAI_API_KEY" in
  api_base <- py_get config "api_base" PNone ;;
  api_type <- py_get config "api_type" PNone ;;
  api_version <- py_get config "api_version" PNone ;;
  default_headers <- py_get config "default_headers" PNone ;;
  dimensions <- py_get config "dimensions" PNone ;;
  deployment_id <- py_get config "deployment_id" PNone ;;
  organization_id <- py_get config "organization_id" PNone ;;
  Ok (PEmbFn "OpenAIEmbeddingFunction"
        [("api_key", api_key);
         ("model_name", model_name);
         ("api_base", api_base);
         ("api_type", api_type);
         ("api_version", api_version);
         ("default_headers", default_headers);
         ("dimensions", dimensions);
         ("deployment_id", deployment_id);
         ("organization_id", organization_id)]).

Definition _configure_azure (config model_name : pyval) : result pyval :=
  api_key <- py_get config "api_key" PNone ;;
  api_base <- py_get config "api_base" PNone ;;
  api_type <- py_get config "api_type" (PStr "azure") ;;
  api_version <- py_get config "api_version" PNone ;;
  default_headers <- py_get config "default_headers" PNone ;;
  dimensions <- py_get config "dimensions" PNone ;;
  deployment_id <- py_get config "deployment_id" PNone ;;
  organization_id <- py_get config "organization_id" PNone ;;
  Ok (PEmbFn "OpenAIEmbeddingFunction"
        [("api_key", api_key);
         ("api_base", api_base);
         ("api_type", api_type);
         ("api_version", api_version);
         ("model_name", model_name);
         ("default_headers", default_headers);
         ("dimensions", dimensions);
         ("deployment_id", deployment_id);
         ("organization_id", organization_id)]).

Definition _configure_ollama (config model_name : pyval) : result pyval :=
  if negb (truthy model_name)
  then Err (Raise ValueError
              [Lit "Model name is required for Ollama embedder configuration"])
  else
    url <- py_get config "url" PNone ;;
    url <- (if truthy url then Ok url else py_get config "api_url" PNone) ;;
    url <- (if truthy url then Ok url else py_get config "base_url" PNone) ;;
    url <- (if truthy url then Ok url else py_get config "api_base" PNone) ;;
    let url := if truthy url then url else PStr default_ollama_url in
    validated_url <- _validate_url url ;;
    Ok (PEmbFn "OllamaEmbeddingFunction"
          [("url", validated_url); ("model_name", model_name)]).

Definition _configure_vertexai (config model_name : pyval) : result pyval :=
  api_key <- py_get config "api_key" PNone ;;
  project_id <- py_get config "project_id" PNone ;;
  region <- py_get config "region" PNone ;;
  Ok (PEmbFn "GoogleVertexEmbeddingFunction"
        [("model_name", model_name);
         ("api_key", api_key);
         ("project_id", project_id);
         ("region", region)]).

Definition _configure_google (config model_name : pyval) : result pyval :=
  api_key <- py_get config "api_key" PNone ;;
  task_type <- py_get config "task_type" PNone ;;
  Ok (PEmbFn "GoogleGenerativeAiEmbeddingFunction"
        [("model_name", model_name);
         ("api_key", api_key);
         ("task_type", task_type)]).

Definition _configure_cohere (config model_name : pyval) : result pyval :=
  api_key <- py_get config "api_key" PNone ;;
  Ok (PEmbFn "CohereEmbeddingFunction"
        [("model_name", model_name); ("api_key", api_key)]).

Definition _configure_voyageai (config model_name : pyval) : result pyval :=
  api_key <- py_get config "api_key" PNone ;;
  Ok (PEmbFn "VoyageAIEmbeddingFunction"
        [("model_name", model_name); ("api_key", api_key)]).

Definition _configure_bedrock (config model_name : pyval) : result pyval :=
  session <- py_get config "session" PNone ;;
  let kwargs := [("session", session)] in
  let kwargs :=
    match model_name with
    | PNone => kwargs
    | _ => sset "model_name" model_name kwargs
    end in
  Ok (PEmbFn "AmazonBedrockEmbeddingFunction" kwargs).

Definition _configure_huggingface (config model_name : pyval) : result pyval :=
  url <- py_get config "api_url" PNone ;;
  Ok (PEmbFn "HuggingFaceEmbeddingServer" [("url", url)]).

(** The returned object closes over [config]; it reads it only when it
    is called on documents. *)
Definition _configure_watson (config model_name : pyval) : result pyval :=
  if watson_installed
  then Ok (PEmbFn "WatsonEmbeddingFunction" [("config", config)])
  else Err (Raise ImportError
              [Lit "IBM Watson dependencies are not installed. Please install them to use Watson embedding."]).

Definition is_embedding_function (v : pyval) : bool :=
  match v with
  | PEmbFn _ _ => true
  | _ => false
  end.

Definition validated (v : pyval) : result pyval :=
  match validate_embedding_function v with
  | Some m => Err (Raise ValueError m)
  | None => Ok v
  end.

Definition _configure_custom (config : pyval) : result pyval :=
  custom_embedder <- py_get config "embedder" PNone ;;
  if is_embedding_function custom_embedder then
    match validated custom_embedder with
    | Ok v => Ok v
    | Err e =>
        Err (Raise ValueError
               [Lit "Invalid custom embedding function: "; FmtMsg (message e)])
    end
  else
    match custom_embedder with
    | PFunc body =>
        let attempt :=
          match body with
          | inl instance =>
              if is_embedding_function instance then validated instance
              else Err (Raise ValueError
                          [Lit "Custom embedder does not create an EmbeddingFunction instance"])
          | inr m => Err (Raise Exception [Lit m])
          end in
        match attempt with
        | Ok v => Ok v
        | Err e =>
            Err (Raise ValueError
                   [Lit "Error instantiating custom embedder: "; FmtMsg (message e)])
        end
    | _ =>
        Err (Raise ValueError
               [Lit "Custom embedder must be an instance of `EmbeddingFunction` or a callable that creates one"])
    end.

Definition __init__ : EmbeddingConfigurator :=
  {| embedding_functions :=
       [("openai", takes2 "_configure_openai" _configure_openai);
        ("azure", takes2 "_configure_azure" _configure_azure);
        ("ollama", takes2 "_configure_ollama" _configure_ollama);
        ("vertexai", takes2 "_configure_vertexai" _configure_vertexai);
        ("google", takes2 "_configure_google" _configure_google);
        ("cohere", takes2 "_configure_cohere" _configure_cohere);
        ("voyageai", takes2 "_configure_voyageai" _configure_voyageai);
        ("bedrock", takes2 "_configure_bedrock" _configure_bedrock);
        ("huggingface", takes2 "_configure_huggingface" _configure_huggingface);
        ("watson", takes2 "_configure_watson" _configure_watson);
        ("custom", takes1 "_configure_custom" _configure_custom)] |}.

(** [provider in self.embedding_functions], with the entry found. *)
Definition lookup_provider (self : EmbeddingConfigurator) (provider : pyval)
  : result (option configurator) :=
  if hashable provider then
    Ok match provider with
       | PStr p => dict_get String.eqb p (embedding_functions self)
       | _ => None
       end
  else Err (Raise TypeError [Lit "unhashable type: '"; Lit (type_name provider); Lit "'"]).

Definition traced {A} (r : result A) (k : A -> call_log * result pyval)
  : call_log * result pyval :=
  match r with
  | Ok a => k a
  | Err e => ([], Err e)
  end.

(** Returns the embedding function (or the exception), together with the
    calls made through the dispatch table. *)
Definition configure_embedder (self : EmbeddingConfigurator)
    (embedder_config : option pydict) : call_log * result pyval :=
  match embedder_config with
  | None => ([], _create_default_embedding_function)
  | Some embedder_config =>
      let provider := default PNone (sget "provider" embedder_config) in
      let config := default (PDict []) (sget "config" embedder_config) in
      traced (if negb (eq_str provider "custom")
              then py_get config "model" PNone
              else Ok PNone) (fun model_name =>
      traced (lookup_provider self provider) (fun found =>
      match found with
      | None =>
          ([], Err (Raise Exception
                      [Lit "Unsupported embedding provider: "; FmtVal provider;
                       Lit ", supported providers: ";
                       FmtKeys (dict_keys (embedding_functions self))]))
      | Some embedding_function =>
          let args :=
            if eq_str provider "custom" then [config] else [config; model_name] in
          ([(fn_name embedding_function, args)], fn_call embedding_function args)
      end))
  end.

End Configurators.

(** A callable that returns, if it returns, an embedding function. *)
Definition returns_embedding_function (f : list pyval -> result pyval) : Prop :=
  forall args v, f args = Ok v -> is_embedding_function v = true.

End EmbeddingConfigurator.

(* ===================================================================== *)
(** * utilities/evaluators/crew_evaluator_handler.py                      *)
(* ===================================================================== *)

Module CrewEvaluator.
Import Py.

(** ** Collaborators

    [LLM], [Agent], [Task], [TaskOutput] and [Crew] are defined outside
    this file of the repository; the records keep the attributes that
    the evaluator reads or writes.  A task's [_execution_time] is taken
    to be a number by the time its callback runs. *)

Record LLM : Type := { model : string }.

Inductive llm_arg : Type :=
| ModelName (name : string)
| LLMInstance (l : LLM).

Record Agent : Type := {
  role : string;
  goal : string;
  backstory : string;
  verbose : bool;
  agent_llm : LLM
}.

Inductive pydantic_model : Type :=
| TaskEvaluationPydanticOutput (quality : Qc)
| OtherModel (name : string).

Record Task : Type := {
  description : string;
  expected_output : string;
  agent : option Agent;
  output_pydantic : option string;
  callback : option nat;                (* the evaluator whose [evaluate] is bound *)
  processed_by_agents : list string;
  _execution_time : Qc
}.

Record TaskOutput : Type := {
  output_description : string;
  raw : string;
  pydantic : option pydantic_model
}.

Record Crew : Type := { tasks : list Task }.

(** What [Telemetry.individual_test_result_span] is called with. *)
Record Span : Type := {
  span_crew : Crew;
  span_quality : Qc;
  span_exec_time : Qc;
  span_model : string
}.

(** ** Numbers *)

(** [sum(xs)] over floats and over ints: left to right, from 0. *)
Definition py_sum (xs : list Qc) : Qc := fold_left Qcplus xs (Q2Qc 0).
Definition py_sum_int (xs : list Z) : Z := fold_left Z.add xs 0.

Definition division_by_zero : exn :=
  Raise ZeroDivisionError [Lit "division by zero"].

(** [x / n] for a length [n]. *)
Definition py_div (x : Qc) (n : nat) : result Qc :=
  match n with
  | O => Err division_by_zero
  | S _ => Ok (x / Q2Qc (inject_Z (Z.of_nat n)))%Qc
  end.

(** [int(x)]: truncation towards zero. *)
Definition py_int (x : Qc) : Z := Z.quot (Qnum x) (Zpos (Qden x)).

(** [l[i]]. *)
Definition py_index {A} (l : list A) (i : nat) : result A :=
  match nth_error l i with
  | Some x => Ok x
  | None => Err (Raise IndexError [Lit "list index out of range"])
  end.

(** [zip] over the unpacked list [ls]: the tuples of the j-th elements,
    as long as every list has one; nothing for no list at all. *)
Fixpoint zip_star {A} (ls : list (list A)) : list (list A) :=
  match ls with
  | [] => []
  | [l] => map (fun x => [x]) l
  | l :: ls' => zip_with cons l (zip_star ls')
  end.

(** [range(1, n + 1)], as dictionary keys. *)
Definition runs (n : nat) : list Z := map Z.of_nat (seq 1 n).

(** ** Class-level and instance-level state *)

Abbreviation scores := (list (Z * list Qc)).

(** The attributes declared in the class body: one object each, shared
    by the class and all its instances. *)
Record ClassAttrs : Type := {
  tasks_scores : scores;
  run_execution_times : scores;
  iteration : Z
}.

(** The class as its body leaves it: two empty tables, iteration 0. *)
Definition class_body : ClassAttrs :=
  {| tasks_scores := []; run_execution_times := []; iteration := 0 |}.

(** An instance's own attributes.  [own_iteration] is the entry
    [iteration] of the instance dictionary, absent until
    [set_iteration] assigns it. *)
Record CrewEvaluator : Type := {
  crew : Crew;
  llm : LLM;
  own_iteration : option Z;
  _test_result_span : option Span
}.

(** Attribute lookup on an instance: the instance first, then the
    class.  No instance ever owns [tasks_scores] or
    [run_execution_times]. *)
Definition self_iteration (cls : ClassAttrs) (self : CrewEvaluator) : Z :=
  default (iteration cls) (own_iteration self).
Definition self_tasks_scores (cls : ClassAttrs) (self : CrewEvaluator) : scores :=
  tasks_scores cls.
Definition self_run_execution_times (cls : ClassAttrs) (self : CrewEvaluator) : scores :=
  run_execution_times cls.

(** [d[k]] on a [defaultdict(list)]: a missing key is inserted with a
    new empty list. *)
Definition dd_getitem (k : Z) (d : scores) : list Qc * scores :=
  match dict_get Z.eqb k d with
  | Some v => (v, d)
  | None => ([], d ++ [(k, [])])
  end.

(** [d[k].append(x)]. *)
Definition dd_append (k : Z) (x : Qc) (d : scores) : scores :=
  let '(v, d) := dd_getitem k d in
  dict_set Z.eqb k (v ++ [x]) d.

(** ** The table *)

Inductive cell : Type :=
| Text (s : string)
| Numbered (prefix : string) (n : nat)     (* f"Task {n}", f"Run {n}" *)
| Fixed (digits : nat) (x : Qc)            (* f"{x:.1f}", f"{x:.2f}" *)
| Int (z : Z).                             (* str(z) *)

Record Table : Type := {
  title : string;
  columns : list cell;
  rows : list (list cell)
}.

(** ** A computation that reads (and may extend) [tasks_scores] and may
    raise *)

Definition ev (A : Type) : Type := scores -> scores * result A.

Definition ret {A} (a : A) : ev A := fun d => (d, Ok a).

Definition bind_ev {A B} (m : ev A) (k : A -> ev B) : ev B :=
  fun d =>
    match m d with
    | (d', Ok a) => k a d'
    | (d', Err e) => (d', Err e)
    end.

Definition lift {A} (r : result A) : ev A := fun d => (d, r).

Definition getitem (run : Z) : ev (list Qc) :=
  fun d => let '(v, d') := dd_getitem run d in (d', Ok v).

Definition read_len : ev nat := fun d => (d, Ok (List.length d)).
Definition read_values : ev (list (list Qc)) := fun d => (d, Ok (dict_values d)).

Declare Scope ev_scope.
Delimit Scope ev_scope with ev.
Notation "x <~ e ;; k" := (bind_ev e (fun x => k))
  (at level 100, e at next level, right associativity) : ev_scope.

Fixpoint mapM {A B} (f : A -> ev B) (l : list A) : ev (list B) :=
  match l with
  | [] => ret []
  | a :: l' =>
      (b <~ f a ;;
       bs <~ mapM f l' ;;
       ret (b :: bs))%ev
  end.

Fixpoint mapR {A B} (f : A -> result B) (l : list A) : result (list B) :=
  match l with
  | [] => Ok []
  | a :: l' =>
      (b <- f a ;;
       bs <- mapR f l' ;;
       Ok (b :: bs))%py
  end.

(** [enumerate(l)]. *)
Definition enumerate {A} (l : list A) : list (nat * A) :=
  combine (seq 0 (List.length l)) l.

(** ** The evaluator *)

Section Evaluator.

(** The two calls that leave the repository: running the evaluation
    task on the language model ([Task.execute_sync], which yields the
    task's output) and rendering the model as text ([str(self.llm)]). *)
Variable execute_sync : Task -> TaskOutput.
Variable llm_str : LLM -> string.

Definition _setup_for_evaluating (self_id : nat) (c : Crew) : Crew :=
  {| tasks :=
       map (fun task =>
              {| description := description task;
                 expected_output := expected_output task;
                 agent := agent task;
                 output_pydantic := output_pydantic task;
                 callback := Some self_id;
                 processed_by_agents := processed_by_agents task;
                 _execution_time := _execution_time task |})
           (tasks c) |}.

(** [CrewEvaluator(crew, llm)]: [self_id] is the identity of the new
    object.  The class attributes are not assigned. *)
Definition __init__ (cls : ClassAttrs) (self_id : nat) (crew : Crew) (llm : llm_arg)
  : ClassAttrs * CrewEvaluator :=
  (cls,
   {| crew := _setup_for_evaluating self_id crew;
      llm := match llm with
             | LLMInstance l => l
             | ModelName name => {| model := name |}
             end;
      own_iteration := None;
      _test_result_span := None |}).

Definition _evaluator_agent (self : CrewEvaluator) : Agent :=
  {| role := "Task Execution Evaluator";
     goal := "Your goal is to evaluate the performance of the agents in the crew based on the tasks they have performed using score from 1 to 10 evaluating on completion, quality, and overall performance.";
     backstory := "Evaluator agent for crew evaluation with precise capabilities to evaluate the performance of the agents in the crew based on the tasks they have performed";
     verbose := false;
     agent_llm := llm self |}.

Definition fmt_opt (o : option string) : string := default "None" o.

(** The attributes that the constructor is not given keep their
    defaults; the evaluator never reads them on this task. *)
Definition _evaluation_task (self : CrewEvaluator) (evaluator_agent : Agent)
    (task_to_evaluate : Task) (task_output : string) : Task :=
  {| description :=
       String.concat ""
         ["Based on the task description and the expected output, compare and evaluate the performance of the agents in the crew based on the Task Output they have performed using score from 1 to 10 evaluating on completion, quality, and overall performance.";
          "task_description: "; description task_to_evaluate; " ";
          "task_expected_output: "; expected_output task_to_evaluate; " ";
          "agent: "; fmt_opt (role <$> agent task_to_evaluate); " ";
          "agent_goal: "; fmt_opt (goal <$> agent task_to_evaluate); " ";
          "Task Output: "; task_output];
     expected_output := "Evaluation Score from 1 to 10 based on the performance of the agents on the tasks";
     agent := Some evaluator_agent;
     output_pydantic := Some "TaskEvaluationPydanticOutput";
     callback := None;
     processed_by_agents := [];
     _execution_time := Q2Qc 0 |}.

(** [self.iteration = iteration]: an assignment on the instance. *)
Definition set_iteration (self : CrewEvaluator) (iteration : Z) : CrewEvaluator :=
  {| crew := crew self;
     llm := llm self;
     own_iteration := Some iteration;
     _test_result_span := _test_result_span self |}.

Definition evaluate (cls : ClassAttrs) (self : CrewEvaluator) (task_output : TaskOutput)
  : ClassAttrs * CrewEvaluator * result unit :=
  let current_task :=
    List.find (fun task => String.eqb (description task) (output_description task_output))
              (tasks (crew self)) in
  match current_task with
  | None =>
      (cls, self,
       Err (Raise ValueError
              [Lit "Task to evaluate and task output are required for evaluation"]))
  | Some current_task =>
      let evaluator_agent := _evaluator_agent self in
      let evaluation_task :=
        _evaluation_task self evaluator_agent current_task (raw task_output) in
      let evaluation_result := execute_sync evaluation_task in
      match pydantic evaluation_result with
      | Some (TaskEvaluationPydanticOutput quality) =>
          let span :=
            {| span_crew := crew self;
               span_quality := quality;
               span_exec_time := _execution_time current_task;
               span_model := llm_str (llm self) |} in
          let self :=
            {| crew := crew self;
               llm := llm self;
               own_iteration := own_iteration self;
               _test_result_span := Some span |} in
          let cls :=
            {| tasks_scores :=
                 dd_append (self_iteration cls self) quality (self_tasks_scores cls self);
               run_execution_times := run_execution_times cls;
               iteration := iteration cls |} in
          let cls :=
            {| tasks_scores := tasks_scores cls;
               run_execution_times :=
                 dd_append (self_iteration cls self) (_execution_time current_task)
                           (self_run_execution_times cls self);
               iteration := iteration cls |} in
          (cls, self, Ok tt)
      | _ =>
          (cls, self,
           Err (Raise ValueError [Lit "Evaluation result is not in the expected format"]))
      end
  end.

Definition blank_row : list cell :=
  [Text ""; Text ""; Text ""; Text ""; Text ""; Text ""].

Definition agent_row (agent : string) : list cell :=
  [Text ""; Text ""; Text ""; Text ""; Text ""; Text (String.append "- " agent)].

Definition first_agent_cell (agents : list string) : cell :=
  match agents with
  | a :: _ => Text (String.append "- " a)
  | [] => Text ""
  end.

Definition table_title : string :=
  String.concat "" ["Tasks Scores "; String (Ascii.ascii_of_nat 10) ""; " (1-10 Higher is better)"].

(** The rows added for one task of the crew. *)
Definition task_rows (self : CrewEvaluator) (task_averages : list Qc)
    (task_index : nat) (task : Task) : ev (list (list cell)) :=
  (n <~ read_len ;;
   task_scores <~ mapM (fun run =>
                          l <~ getitem run ;;
                          lift (py_index l task_index)) (runs n) ;;
   avg_score <~ lift (py_index task_averages task_index) ;;
   let agents := processed_by_agents task in
   ret ([[Numbered "Task " (task_index + 1)]
           ++ map (Fixed 1) task_scores
           ++ [Fixed 1 avg_score; first_agent_cell agents]]
        ++ map agent_row (tl agents)
        ++ (if Z.of_nat task_index <? Z.of_nat (List.length (tasks (crew self))) - 1
            then [blank_row] else [])))%ev.

Definition print_body (cls : ClassAttrs) (self : CrewEvaluator) : ev Table :=
  (values <~ read_values ;;
   task_averages <~ lift (mapR (fun scores => py_div (py_sum scores) (List.length scores))
                               (zip_star values)) ;;
   crew_average <~ lift (py_div (py_sum task_averages) (List.length task_averages)) ;;
   n <~ read_len ;;
   let columns :=
     [Text "Tasks/Crew/Agents"]
       ++ map (Numbered "Run ") (seq 1 n)
       ++ [Text "Avg. Total"; Text "Agents"] in
   per_task <~ mapM (fun '(task_index, task) =>
                       task_rows self task_averages task_index task)
                    (enumerate (tasks (crew self))) ;;
   n <~ read_len ;;
   crew_scores <~ mapM (fun run =>
                          xs <~ getitem run ;;
                          ys <~ getitem run ;;
                          lift (py_div (py_sum xs) (List.length ys))) (runs n) ;;
   let crew_row :=
     [Text "Crew"] ++ map (Fixed 2) crew_scores ++ [Fixed 1 crew_average; Text ""] in
   let run_exec_times :=
     map (fun '(_, tasks_exec_times) => py_int (py_sum tasks_exec_times))
         (self_run_execution_times cls self) in
   execution_time_avg <~ lift (py_div (Q2Qc (inject_Z (py_sum_int run_exec_times)))
                                      (List.length run_exec_times)) ;;
   let execution_time_avg := py_int execution_time_avg in
   let time_row :=
     [Text "Execution Time (s)"]
       ++ map Int run_exec_times
       ++ [Int execution_time_avg; Text ""] in
   ret {| title := table_title;
          columns := columns;
          rows := concat per_task ++ [crew_row; time_row] |})%ev.

(** Returns the table that is printed, or the exception, and the class
    attributes afterwards. *)
Definition print_crew_evaluation_result (cls : ClassAttrs) (self : CrewEvaluator)
  : ClassAttrs * result Table :=
  let '(d, r) := print_body cls self (self_tasks_scores cls self) in
  ({| tasks_scores := d;
      run_execution_times := run_execution_times cls;
      iteration := iteration cls |}, r).

End Evaluator.

End CrewEvaluator.

(* ===================================================================== *)
(** * The evaluation table, in the words of its description               *)
(* ===================================================================== *)

Module Averages.
Import Py CrewEvaluator.

(** An integer as a rational. *)
Definition of_int (z : Z) : Qc := Q2Qc (inject_Z z).

(** The arithmetic mean. *)
Definition total (xs : list Qc) : Qc := fold_right Qcplus (Q2Qc 0) xs.
Definition mean (xs : list Qc) : Qc :=
  (total xs / Q2Qc (inject_Z (Z.of_nat (List.length xs))))%Qc.

(** [d[run]] and [d[run][i]] for a key that is present. *)
Definition of_run (d : scores) (run : Z) : list Qc :=
  default [] (dict_get Z.eqb run d).
Definition score_at (cls : ClassAttrs) (run : Z) (i : nat) : Qc :=
  nth i (of_run (tasks_scores cls) run) (Q2Qc 0).

(** Per-task average: the mean of [tasks_scores[run][i]] over the runs
    1..n. *)
Definition task_average (cls : ClassAttrs) (n i : nat) : Qc :=
  mean (map (fun run => score_at cls run i) (runs n)).

(** Per-run crew score: the mean of [tasks_scores[run]] over its tasks. *)
Definition crew_score (cls : ClassAttrs) (run : Z) : Qc :=
  mean (of_run (tasks_scores cls) run).

(** Overall crew average: the mean of the per-task averages of the [m]
    tasks. *)
Definition crew_average (cls : ClassAttrs) (n m : nat) : Qc :=
  mean (map (task_average cls n) (seq 0 m)).

(** The summed execution time of a run, and that sum as it is shown. *)
Definition run_time (cls : ClassAttrs) (run : Z) : Qc :=
  total (of_run (run_execution_times cls) run).
Definition shown_run_time (cls : ClassAttrs) (run : Z) : Z :=
  py_int (run_time cls run).

(** Average execution time, read as the truncation of the mean of the
    summed times of the runs. *)
Definition mean_of_sums_truncated (cls : ClassAttrs) (n : nat) : Z :=
  py_int (mean (map (run_time cls) (runs n))).

(** Average execution time, as the truncation of the mean of the
    summed times after each has been truncated to whole seconds. *)
Definition mean_of_shown_truncated (cls : ClassAttrs) (n : nat) : Z :=
  py_int (mean (map (fun run => Q2Qc (inject_Z (shown_run_time cls run))) (runs n))).

(** The table for a crew and [n] runs, given its bottom-right figure. *)
Definition table_of (c : Crew) (cls : ClassAttrs) (n : nat) (time_avg : Z) : Table :=
  let m := List.length (tasks c) in
  {| title := table_title;
     columns :=
       [Text "Tasks/Crew/Agents"]
         ++ map (Numbered "Run ") (seq 1 n)
         ++ [Text "Avg. Total"; Text "Agents"];
     rows :=
       concat
         (map (fun '(i, task) =>
                 [[Numbered "Task " (i + 1)]
                    ++ map (fun run => Fixed 1 (score_at cls run i)) (runs n)
                    ++ [Fixed 1 (task_average cls n i);
                        first_agent_cell (processed_by_agents task)]]
                 ++ map agent_row (tl (processed_by_agents task))
                 ++ (if Z.of_nat i <? Z.of_nat m - 1 then [blank_row] else []))
              (enumerate (tasks c)))
       ++ [[Text "Crew"]
             ++ map (fun run => Fixed 2 (crew_score cls run)) (runs n)
             ++ [Fixed 1 (crew_average cls n m); Text ""];
           [Text "Execution Time (s)"]
             ++ map (fun ts => Int (py_int (total ts)))
                    (dict_values (run_execution_times cls))
             ++ [Int time_avg; Text ""]] |}.

(** The execution times that a table shows, one per entry of
    [run_execution_times] in the order of insertion. *)
Definition times_of (cls : ClassAttrs) : list Z :=
  map (fun ts => py_int (total ts)) (dict_values (run_execution_times cls)).

(** The keys of a table in their order, each with the length of its
    list. *)
Definition shape (d : scores) : list (Z * nat) :=
  map (fun '(k, l) => (k, List.length l)) d.

(** The average execution time that a table shows: the cell before
    the last one of its last row. *)
Definition shown_time_avg (t : Table) : option cell :=
  match rev (List.last (rows t) []) with
  | _ :: c :: _ => Some c
  | _ => None
  end.

(** The states of the evaluator after [n] complete runs: both tables
    have exactly the keys 1..n, and each run holds one score per task
    of the crew. *)
Record recorded (c : Crew) (cls : ClassAttrs) (n : nat) : Prop := {
  some_run : (1 <= n)%nat;
  scores_keys : Permutation (dict_keys (tasks_scores cls)) (runs n);
  times_keys : Permutation (dict_keys (run_execution_times cls)) (runs n);
  one_score_per_task :
    Forall (fun l => List.length l = List.length (tasks c))
           (dict_values (tasks_scores cls))
}.

End Averages.

(* ===================================================================== *)
(** * Sample inputs                                                       *)
(* ===================================================================== *)

Module Samples.
Import Py.

(** An environment without variables, and a reading of URLs that is
    enough for the samples below: [http://host/path] has scheme [http]
    and the given host, anything else has neither. *)
Definition no_env : string -> option string := fun _ => None.

Fixpoint upto_slash (s : string) : string :=
  match s with
  | EmptyString => EmptyString
  | String c s' => if Ascii.eqb c (Ascii.ascii_of_nat 47) then EmptyString else String c (upto_slash s')
  end.

Definition sample_urlparse (url : pyval) : result EmbeddingConfigurator.ParseResult :=
  match url with
  | PStr s =>
      if String.prefix "http://" s
      then Ok {| EmbeddingConfigurator.scheme := "http";
                 EmbeddingConfigurator.netloc := upto_slash (String.substring 7 (String.length s - 7) s) |}
      else Ok {| EmbeddingConfigurator.scheme := "";
                 EmbeddingConfigurator.netloc := "" |}
  | _ =>
      Err (Raise AttributeError
             [Lit "'"; Lit (type_name url); Lit "' object has no attribute 'decode'"])
  end.

Definition accept_all : pyval -> option (list msg_part) := fun _ => None.

Definition sample_configurator : EmbeddingConfigurator.EmbeddingConfigurator :=
  EmbeddingConfigurator.__init__ no_env sample_urlparse true accept_all.

Definition sample_configure_embedder :=
  EmbeddingConfigurator.configure_embedder no_env sample_configurator.

(** [{"provider": "ollama", "config": {"model": "nomic-embed-text"}}] *)
Definition ollama_config : pydict :=
  [("provider", PStr "ollama");
   ("config", PDict [("model", PStr "nomic-embed-text")])].

(** [{"provider": "watson", "config": None}] *)
Definition watson_null_config : pydict :=
  [("provider", PStr "watson"); ("config", PNone)].

(** [{"provider": "mistral", "config": {"model": "m"}}],
    [{"provider": "mistral", "config": None}] and
    [{"provider": ["openai"]}] *)
Definition mistral_config : pydict :=
  [("provider", PStr "mistral"); ("config", PDict [("model", PStr "m")])].
Definition mistral_null_config : pydict :=
  [("provider", PStr "mistral"); ("config", PNone)].
Definition list_provider_config : pydict :=
  [("provider", PList [PStr "openai"])].

(** [{"provider": "ollama", "config": {"url": "http://ollama:11434/api/embeddings"}}],
    [{"provider": "cohere", "config": {"api_key": "k"}}] and
    [{"provider": "bedrock"}] *)
Definition ollama_without_model : pydict :=
  [("provider", PStr "ollama");
   ("config", PDict [("url", PStr "http://ollama:11434/api/embeddings")])].
Definition cohere_without_model : pydict :=
  [("provider", PStr "cohere"); ("config", PDict [("api_key", PStr "k")])].
Definition bedrock_bare : pydict := [("provider", PStr "bedrock")].

(** A user's own embedding function. *)
Definition my_embedder : pyval := PEmbFn "MyEmbeddingFunction" [].

(** *** Evaluator *)

Definition qc (num : Z) (den : positive) : Qc := Q2Qc (num # den).

Definition sample_task (d : string) (agents : list string) (seconds : Qc)
  : CrewEvaluator.Task :=
  {| CrewEvaluator.description := d;
     CrewEvaluator.expected_output := "a report";
     CrewEvaluator.agent := None;
     CrewEvaluator.output_pydantic := None;
     CrewEvaluator.callback := None;
     CrewEvaluator.processed_by_agents := agents;
     CrewEvaluator._execution_time := seconds |}.

(** The language model scores every task 9; or it answers without the
    expected structure. *)
Definition scores_nine (t : CrewEvaluator.Task) : CrewEvaluator.TaskOutput :=
  {| CrewEvaluator.output_description := CrewEvaluator.description t;
     CrewEvaluator.raw := "9";
     CrewEvaluator.pydantic := Some (CrewEvaluator.TaskEvaluationPydanticOutput (qc 9 1)) |}.
Definition answers_freely (t : CrewEvaluator.Task) : CrewEvaluator.TaskOutput :=
  {| CrewEvaluator.output_description := CrewEvaluator.description t;
     CrewEvaluator.raw := "good";
     CrewEvaluator.pydantic := None |}.

Definition no_scores : CrewEvaluator.ClassAttrs :=
  {| CrewEvaluator.tasks_scores := [];
     CrewEvaluator.run_execution_times := [];
     CrewEvaluator.iteration := 0 |}.

Definition evaluator_of (c : CrewEvaluator.Crew) : CrewEvaluator.CrewEvaluator :=
  (CrewEvaluator.__init__ no_scores 0%nat c (CrewEvaluator.ModelName "gpt-4o")).2.

(** The table of the docstring: two tasks, three runs. *)
Definition research_crew : CrewEvaluator.Crew :=
  {| CrewEvaluator.tasks :=
       [sample_task "research" ["AI LLMs Senior Researcher"] (qc 20 1);
        sample_task "report" ["AI LLMs Senior Researcher"] (qc 22 1)] |}.

Definition three_runs : CrewEvaluator.ClassAttrs :=
  {| CrewEvaluator.tasks_scores :=
       [(1, [qc 9 1; qc 9 1]); (2, [qc 10 1; qc 9 1]); (3, [qc 9 1; qc 9 1])];
     CrewEvaluator.run_execution_times :=
       [(1, [qc 20 1; qc 22 1]); (2, [qc 40 1; qc 39 1]); (3, [qc 26 1; qc 26 1])];
     CrewEvaluator.iteration := 0 |}.

(** One task, two runs that took 0.5 s and 1.5 s. *)
Definition quick_crew : CrewEvaluator.Crew :=
  {| CrewEvaluator.tasks := [sample_task "lookup" [] (qc 1 2)] |}.

Definition two_quick_runs : CrewEvaluator.ClassAttrs :=
  {| CrewEvaluator.tasks_scores := [(1, [qc 8 1]); (2, [qc 9 1])];
     CrewEvaluator.run_execution_times := [(1, [qc 1 2]); (2, [qc 3 2])];
     CrewEvaluator.iteration := 0 |}.

(** A crew without tasks, and one run recorded for it. *)
Definition idle_crew : CrewEvaluator.Crew := {| CrewEvaluator.tasks := [] |}.

Definition one_idle_run : CrewEvaluator.ClassAttrs :=
  {| CrewEvaluator.tasks_scores := [(1, [])];
     CrewEvaluator.run_execution_times := [(1, [])];
     CrewEvaluator.iteration := 0 |}.

(** Two tasks with one description; scores and times recorded under
    iteration 0; and times kept under keys of their own. *)
Definition twin_crew : CrewEvaluator.Crew :=
  {| CrewEvaluator.tasks :=
       [sample_task "lookup" [] (qc 1 2); sample_task "lookup" ["Editor"] (qc 3 2)] |}.

Definition run_zero : CrewEvaluator.ClassAttrs :=
  {| CrewEvaluator.tasks_scores := [(0, [qc 9 1])];
     CrewEvaluator.run_execution_times := [(0, [qc 1 2])];
     CrewEvaluator.iteration := 0 |}.

Definition stray_times : CrewEvaluator.ClassAttrs :=
  {| CrewEvaluator.tasks_scores := [(1, [qc 8 1]); (2, [qc 9 1])];
     CrewEvaluator.run_execution_times := [(7, [qc 5 2])];
     CrewEvaluator.iteration := 0 |}.

(** Two runs of the research crew. *)
Definition two_runs : CrewEvaluator.ClassAttrs :=
  {| CrewEvaluator.tasks_scores := [(1, [qc 9 1; qc 9 1]); (2, [qc 10 1; qc 9 1])];
     CrewEvaluator.run_execution_times :=
       [(1, [qc 20 1; qc 22 1]); (2, [qc 40 1; qc 39 1])];
     CrewEvaluator.iteration := 0 |}.

End Samples.

(* ===================================================================== *)
(** * Properties                                                          *)
(* ===================================================================== *)

(** ** Dictionaries *)

Section DictFacts.
Context {K V : Type} (eqb : K -> K -> bool).
Hypothesis eqb_eq : forall a b, eqb a b = true <-> a = b.

Lemma eqb_refl_true a : eqb a a = true.
Proof. by apply eqb_eq. Qed.

Lemma eqb_neq_false a b : a <> b -> eqb a b = false.
Proof.
  intros Hne. destruct (eqb a b) eqn:E; [|done].
  by apply eqb_eq in E.
Qed.

Lemma dict_get_set_eq k (v : V) d :
  Py.dict_get eqb k (Py.dict_set eqb k v d) = Some v.
Proof.
  induction d as [|[k' v'] d IH]; simpl.
  - by rewrite eqb_refl_true.
  - destruct (eqb k k') eqn:E; simpl; rewrite E; [done | exact IH].
Qed.

Lemma dict_get_set_ne k k' (v : V) d :
  k <> k' -> Py.dict_get eqb k' (Py.dict_set eqb k v d) = Py.dict_get eqb k' d.
Proof.
  intros Hne. induction d as [|[k0 v0] d IH]; simpl.
  - rewrite eqb_neq_false; [done | congruence].
  - destruct (eqb k k0) eqn:E; simpl.
    + apply eqb_eq in E. subst k0. rewrite eqb_neq_false; [done | congruence].
    + by rewrite IH.
Qed.

Lemma dict_get_in_keys k d :
  In k (Py.dict_keys d) -> exists v : V, Py.dict_get eqb k d = Some v.
Proof.
  induction d as [|[k' v'] d IH]; simpl; [done|].
  intros [->|Hin].
  - rewrite eqb_refl_true. eauto.
  - destruct (eqb k k'); eauto.
Qed.

Lemma dict_get_not_in_keys k d :
  ~ In k (Py.dict_keys d) -> Py.dict_get eqb k d = (None : option V).
Proof.
  induction d as [|[k' v'] d IH]; simpl; [done|].
  intros Hn. rewrite eqb_neq_false; [|intros ->; tauto].
  apply IH. tauto.
Qed.

End DictFacts.

Lemma sget_sset_eq k v d : Py.sget k (Py.sset k v d) = Some v.
Proof. apply dict_get_set_eq, String.eqb_eq. Qed.

Lemma sget_sset_ne k k' v d : k <> k' -> Py.sget k' (Py.sset k v d) = Py.sget k' d.
Proof. apply dict_get_set_ne, String.eqb_eq. Qed.

(** ** Memory *)

Module MemoryFacts.
Import Py Memory.

Lemma truthy_str a : truthy (PStr a) = true <-> a <> "".
Proof.
  simpl. destruct (String.eqb_spec a ""); simpl; split; congruence.
Qed.

Lemma new_dict_lookup h : (new_dict h).2 !! (new_dict h).1 = Some [].
Proof. simpl. by rewrite list_lookup_middle. Qed.

Lemma new_dict_frame h r : (r < List.length h)%nat -> (new_dict h).2 !! r = h !! r.
Proof. intros Hr. simpl. by rewrite lookup_app_l. Qed.

Lemma dict_truthy_nonempty h r d : h !! r = Some d -> d <> [] -> dict_truthy h r = true.
Proof. intros Hr Hd. unfold dict_truthy. rewrite Hr. by destruct d. Qed.

Lemma dict_truthy_false h r d : h !! r = Some d -> dict_truthy h r = false -> d = [].
Proof. intros Hr. unfold dict_truthy. rewrite Hr. by destruct d. Qed.

(** The dict that [metadata or {}] denotes holds what the caller gave,
    and no dict that existed before is changed by it. *)
Lemma metadata_or_new h metadata d0 :
  given h metadata = Some d0 ->
  let '(r, h0) :=
    match metadata with
    | Some r => if dict_truthy h r then (r, h) else new_dict h
    | None => new_dict h
    end in
  h0 !! r = Some d0 /\ (forall r', (r' < List.length h)%nat -> h0 !! r' = h !! r').
Proof.
  destruct metadata as [r|]; simpl.
  - intros Hr. destruct (dict_truthy h r) eqn:E.
    + done.
    + rewrite (dict_truthy_false _ _ _ Hr E). split.
      * by rewrite list_lookup_middle.
      * intros r' Hr'. by rewrite lookup_app_l.
  - intros [= <-]. split.
    + by rewrite list_lookup_middle.
    + intros r' Hr'. by rewrite lookup_app_l.
Qed.

(** Saving without metadata for an agent, and with metadata for none:
    what the recording backend is given. *)
Example save_without_metadata :
  saved (storage (save empty_recorder (PStr "finding") None (Some "researcher") []).1.2)
  = [(PStr "finding", 0%nat, Some [("agent", PStr "researcher")])].
Proof. reflexivity. Qed.

Example save_without_agent :
  let h := [[("agent", PStr "writer"); ("topic", PStr "ai")]] in
  save empty_recorder (PStr "finding") (Some 0%nat) (Some "") h
  = (h,
     {| storage :=
          {| saved := [(PStr "finding", 0%nat,
                        Some [("agent", PStr "writer"); ("topic", PStr "ai")])];
             searched := [] |} |},
     Ok tt).
Proof. reflexivity. Qed.

Example search_with_defaults :
  searched (storage (search empty_recorder "llm" None None []).1.2)
  = [("llm", 3, Q2Qc (35 # 100))].
Proof. reflexivity. Qed.

(** C5. For every query, limit and score threshold, [Memory.search]
    returns exactly what the storage's [search] returns for the same
    query, limit and threshold (the value or the exception, unfiltered
    and in the same order), where an omitted limit is 3 and an omitted
    threshold is 0.35. *)
Theorem search_is_storage_search {S} `{Storage S} (self : Memory S)
    (query : string) (limit : option Z) (score_threshold : option Qc) (h : store) :
  let '(h', s', found) :=
    storage_search (storage self) query
      (default 3 limit) (default (Q2Qc (35 # 100)) score_threshold) h in
  search self query limit score_threshold h = (h', {| storage := s' |}, found).
Proof.
  unfold search, with_storage, default_limit, default_score_threshold.
  by destruct (storage_search _ _ _ _ _) as [[h' s'] found].
Qed.

(** C6. For every value, optional metadata dict and optional agent,
    [Memory.save] is one call of the storage's [save], on the value
    unchanged and on a dict that holds the given metadata (nothing, when
    no metadata is given) with ["agent"] set to the agent exactly when
    the agent is truthy; every other key keeps its value, and no other
    dict is touched. *)
Theorem save_calls_storage_save {S} `{Storage S} (self : Memory S)
    (value : pyval) (metadata : option ref) (agent : option string)
    (h : store) (d0 : pydict) :
  given h metadata = Some d0 ->
  exists (r : ref) (h1 : store) (d : pydict),
    save self value metadata agent h
      = with_storage (storage_save (storage self) value r h1)
    /\ h1 !! r = Some d
    /\ (forall k, k <> "agent" -> sget k d = sget k d0)
    /\ match agent with
       | Some a =>
           if truthy (PStr a)
           then d = sset "agent" (PStr a) d0 /\ sget "agent" d = Some (PStr a)
           else d = d0
       | None => d = d0
       end
    /\ (forall r', r' <> r -> (r' < List.length h)%nat -> h1 !! r' = h !! r').
Proof.
  intros Hgiven. unfold save.
  pose proof (metadata_or_new h metadata d0 Hgiven) as Hm.
  destruct (match metadata with
            | Some r => if dict_truthy h r then (r, h) else new_dict h
            | None => new_dict h
            end) as [r h0].
  destruct Hm as [Hr Hframe].
  destruct agent as [a|]; [destruct (truthy (PStr a)) eqn:Ha|].
  - exists r, (alter (sset "agent" (PStr a)) r h0), (sset "agent" (PStr a) d0).
    split; [done|]. split; [by rewrite list_lookup_alter_eq, Hr|].
    split; [intros k Hk; by apply sget_sset_ne|].
    split; [split; [done | apply sget_sset_eq]|].
    intros r' Hne Hlt. rewrite list_lookup_alter_ne by done. by apply Hframe.
  - exists r, h0, d0. repeat split; try done. intros r' _ Hlt. by apply Hframe.
  - exists r, h0, d0. repeat split; try done. intros r' _ Hlt. by apply Hframe.
Qed.

Lemma save_calls_storage_save_witness :
  exists (r : ref) (h1 : store) (d : pydict),
    save empty_recorder (PStr "finding") (Some 0%nat) (Some "researcher")
         [[("topic", PStr "ai")]]
      = with_storage (storage_save (storage empty_recorder) (PStr "finding") r h1)
    /\ h1 !! r = Some d
    /\ (forall k, k <> "agent" -> sget k d = sget k [("topic", PStr "ai")])
    /\ (d = sset "agent" (PStr "researcher") [("topic", PStr "ai")]
        /\ sget "agent" d = Some (PStr "researcher"))
    /\ (forall r', r' <> r -> (r' < 1)%nat ->
          h1 !! r' = [[("topic", PStr "ai")]] !! r').
Proof.
  apply (save_calls_storage_save empty_recorder (PStr "finding") (Some 0%nat)
           (Some "researcher") [[("topic", PStr "ai")]] [("topic", PStr "ai")]).
  reflexivity.
Defined.

(** [metadata["agent"] = agent] on a dict that is in the store. *)
Lemma alter_is_insert (h : store) r d f :
  h !! r = Some d -> alter f r h = <[r := f d]> h.
Proof.
  intros Hr. apply list_eq. intros i.
  destruct (decide (r = i)) as [->|Hne].
  - rewrite list_lookup_alter_eq, Hr. simpl.
    symmetry. apply list_lookup_insert_eq. by eapply lookup_lt_Some.
  - by rewrite list_lookup_alter_ne, list_lookup_insert_ne.
Qed.

(** C8, amended. For every caller-supplied non-empty metadata dict and
    truthy agent string, [Memory.save] writes to that same dict: the
    storage receives the caller's reference, the dict behind it maps
    ["agent"] to the agent, no dict is created, and (when the storage
    leaves the dicts alone) the caller still sees the new key after the
    call returns. *)
Theorem save_mutates_nonempty_metadata {S} `{Storage S} (self : Memory S)
    (value : pyval) (r : ref) (d : pydict) (a : string) (h : store) :
  h !! r = Some d -> d <> [] -> a <> "" ->
  let d' := sset "agent" (PStr a) d in
  let h1 := <[r := d']> h in
  save self value (Some r) (Some a) h
    = with_storage (storage_save (storage self) value r h1)
  /\ h1 !! r = Some d'
  /\ sget "agent" d' = Some (PStr a)
  /\ List.length h1 = List.length h
  /\ ((storage_save (storage self) value r h1).1.1 = h1 ->
      (save self value (Some r) (Some a) h).1.1 !! r = Some d').
Proof.
  intros Hr Hd Ha d' h1.
  assert (Hsave : save self value (Some r) (Some a) h
                  = with_storage (storage_save (storage self) value r h1)).
  { unfold save. rewrite (dict_truthy_nonempty h r d Hr Hd).
    apply truthy_str in Ha. rewrite Ha.
    by rewrite (alter_is_insert h r d _ Hr). }
  assert (Hlook : h1 !! r = Some d').
  { apply list_lookup_insert_eq. by eapply lookup_lt_Some. }
  split; [exact Hsave|]. split; [exact Hlook|].
  split; [apply sget_sset_eq|]. split; [apply length_insert|].
  intros Hkeep. rewrite Hsave.
  destruct (storage_save (storage self) value r h1) as [[h2 s2] res].
  simpl in *. by subst h2.
Qed.

Lemma save_mutates_nonempty_metadata_witness :
  let d' := sset "agent" (PStr "researcher") [("topic", PStr "ai")] in
  let h1 := <[0%nat := d']> [[("topic", PStr "ai")]] in
  save empty_recorder (PStr "finding") (Some 0%nat) (Some "researcher")
       [[("topic", PStr "ai")]]
    = with_storage (storage_save (storage empty_recorder) (PStr "finding") 0%nat h1)
  /\ h1 !! 0%nat = Some d'
  /\ sget "agent" d' = Some (PStr "researcher")
  /\ List.length h1 = List.length [[("topic", PStr "ai")]]
  /\ ((storage_save (storage empty_recorder) (PStr "finding") 0%nat h1).1.1 = h1 ->
      (save empty_recorder (PStr "finding") (Some 0%nat) (Some "researcher")
            [[("topic", PStr "ai")]]).1.1 !! 0%nat = Some d').
Proof.
  apply (save_mutates_nonempty_metadata empty_recorder (PStr "finding") 0%nat
           [("topic", PStr "ai")] "researcher" [[("topic", PStr "ai")]]).
  - reflexivity.
  - discriminate.
  - discriminate.
Defined.

(** C8 as stated fails for an empty dict.  The caller's dict is object 0
    of the store and is empty; the agent is truthy.  After the call
    object 0 is still empty: [metadata or {}] took a new dict (object 1),
    and that one got the key and went to the storage. *)
Lemma save_leaves_empty_metadata_alone :
  let h := [[]] : store in
  let after := save empty_recorder (PStr "finding") (Some 0%nat) (Some "researcher") h in
  h !! 0%nat = Some []
  /\ truthy (PStr "researcher") = true
  /\ after.1.1 !! 0%nat = Some []
  /\ ~ (exists d, after.1.1 !! 0%nat = Some d
                  /\ sget "agent" d = Some (PStr "researcher"))
  /\ saved (storage after.1.2)
     = [(PStr "finding", 1%nat, Some [("agent", PStr "researcher")])].
Proof.
  simpl. repeat split; try reflexivity.
  intros (d & Hd & Hagent). injection Hd as <-. discriminate.
Qed.

End MemoryFacts.

(** ** Embedding configurator *)

Module EmbeddingFacts.
Import Py EmbeddingConfigurator.
Local Open Scope py_scope.

Section Facts.
Variable getenv : string -> option string.
Variable urlparse : pyval -> result ParseResult.
Variable watson_installed : bool.
Variable validate_embedding_function : pyval -> option (list msg_part).

Let self : EmbeddingConfigurator :=
  __init__ getenv urlparse watson_installed validate_embedding_function.

Lemma init_keys : dict_keys (embedding_functions self) = supported_providers.
Proof. reflexivity. Qed.

Lemma lookup_supported p f :
  dict_get String.eqb p (embedding_functions self) = Some f -> In p supported_providers.
Proof.
  intros Hf. rewrite <- init_keys.
  destruct (in_dec string_dec p (dict_keys (embedding_functions self))) as [|Hn]; [done|].
  rewrite (dict_get_not_in_keys String.eqb String.eqb_eq _ _ Hn) in Hf. done.
Qed.

Lemma lookup_unsupported p :
  ~ In p supported_providers ->
  dict_get String.eqb p (embedding_functions self) = None.
Proof.
  intros Hn. apply (dict_get_not_in_keys String.eqb String.eqb_eq).
  by rewrite init_keys.
Qed.

Lemma config_entry_default ec config :
  config_entry ec config -> default (PDict []) (sget "config" ec) = PDict config.
Proof. by intros [->|[-> ->]]. Qed.

(** The dispatch for a provider of the table other than [custom], on a
    dict. *)
Lemma dispatch_provider ec p f config :
  sget "provider" ec = Some (PStr p) ->
  config_entry ec config ->
  p <> "custom" ->
  dict_get String.eqb p (embedding_functions self) = Some f ->
  let args := [PDict config; default PNone (sget "model" config)] in
  configure_embedder getenv self (Some ec) = ([(fn_name f, args)], fn_call f args).
Proof.
  intros Hp Hc Hne Hf. unfold configure_embedder.
  rewrite Hp, (config_entry_default _ _ Hc).
  change (default PNone (Some (PStr p))) with (PStr p).
  change (eq_str (PStr p) "custom") with (String.eqb p "custom").
  apply String.eqb_neq in Hne. rewrite Hne.
  change (py_get (PDict config) "model" PNone)
    with (Ok (default PNone (sget "model" config))).
  cbn [negb traced]. unfold lookup_provider. cbn [hashable traced].
  by rewrite Hf.
Qed.

Lemma dispatch_custom ec :
  sget "provider" ec = Some (PStr "custom") ->
  let config := default (PDict []) (sget "config" ec) in
  configure_embedder getenv self (Some ec)
    = ([("_configure_custom", [config])],
       _configure_custom validate_embedding_function config).
Proof. intros Hp. unfold configure_embedder. by rewrite Hp. Qed.

Lemma dispatch_unsupported ec config :
  config_entry ec config ->
  let provider := default PNone (sget "provider" ec) in
  hashable provider = true ->
  (forall p, provider = PStr p -> ~ In p supported_providers) ->
  configure_embedder getenv self (Some ec)
    = ([], Err (Raise Exception
                  [Lit "Unsupported embedding provider: "; FmtVal provider;
                   Lit ", supported providers: "; FmtKeys supported_providers])).
Proof.
  intros Hc provider Hh Hnot. unfold configure_embedder. fold provider.
  rewrite (config_entry_default _ _ Hc).
  assert (Hcustom : eq_str provider "custom" = false).
  { destruct provider as [| | | |p| | | | |]; try done. simpl.
    apply String.eqb_neq. intros ->. apply (Hnot "custom"); [done|].
    unfold supported_providers. simpl. tauto. }
  rewrite Hcustom.
  change (py_get (PDict config) "model" PNone)
    with (Ok (default PNone (sget "model" config))).
  cbn [negb traced]. unfold lookup_provider. rewrite Hh. cbn [traced].
  assert (Hnone : match provider with
                  | PStr p => dict_get String.eqb p (embedding_functions self)
                  | _ => None
                  end = None).
  { destruct provider as [| | | |p| | | | |]; try done.
    apply lookup_unsupported. by apply Hnot. }
  rewrite Hnone. by rewrite init_keys.
Qed.

(** A provider other than [custom] with a ["config"] that is no dict:
    the lookup of the model fails before anything is dispatched. *)
Lemma dispatch_without_dict ec config :
  sget "config" ec = Some config ->
  (forall d, config <> PDict d) ->
  eq_str (default PNone (sget "provider" ec)) "custom" = false ->
  configure_embedder getenv self (Some ec)
    = ([], Err (Raise AttributeError
                  [Lit "'"; Lit (type_name config);
                   Lit "' object has no attribute 'get'"])).
Proof.
  intros Hc Hnd Hp. unfold configure_embedder. rewrite Hc, Hp. simpl.
  destruct config; try done. by destruct (Hnd d).
Qed.

(** Whatever the configuration, a configurator that takes a model name
    is only ever handed a dict. *)
Lemma dispatched_config_is_dict ec name config model_name :
  (configure_embedder getenv self (Some ec)).1 = [(name, [config; model_name])] ->
  exists d, config = PDict d.
Proof.
  unfold configure_embedder.
  destruct (eq_str (default PNone (sget "provider" ec)) "custom"); cbn [negb traced].
  - destruct (lookup_provider self _) as [[f|]|]; cbn [traced fst];
      intros Hlog; simplify_eq.
  - destruct (default (PDict []) (sget "config" ec)) as [| | | | | |d| | |];
      cbn [py_get traced fst]; try (intros Hlog; by simplify_eq).
    destruct (lookup_provider self _) as [[f|]|]; cbn [traced fst];
      intros Hlog; simplify_eq. eauto.
Qed.

Lemma ollama_url_selection (config : pydict) :
  (url <- py_get (PDict config) "url" PNone ;;
   url <- (if truthy url then Ok url else py_get (PDict config) "api_url" PNone) ;;
   url <- (if truthy url then Ok url else py_get (PDict config) "base_url" PNone) ;;
   url <- (if truthy url then Ok url else py_get (PDict config) "api_base" PNone) ;;
   Ok (if truthy url then url else PStr default_ollama_url))
  = Ok (url_by_priority config).
Proof.
  unfold url_by_priority. cbn [map List.find py_get bind].
  repeat first
    [ progress cbn [truthy bind default from_option id]
    | match goal with
      | |- context [sget ?k config] => destruct (sget k config) as [?u|]
      | |- context [truthy ?u] =>
          let E := fresh "E" in destruct (truthy u) eqn:E; rewrite ?E
      end ];
    first [reflexivity | congruence].
Qed.

Lemma configure_ollama_eq (config : pydict) (model_name : pyval) :
  _configure_ollama urlparse (PDict config) model_name
  = if negb (truthy model_name)
    then Err (Raise ValueError
                [Lit "Model name is required for Ollama embedder configuration"])
    else
      let url := url_by_priority config in
      match urlparse url with
      | Ok parsed =>
          if negb (String.eqb (scheme parsed) "") && negb (String.eqb (netloc parsed) "")
          then Ok (PEmbFn "OllamaEmbeddingFunction"
                     [("url", url); ("model_name", model_name)])
          else Err (Raise ValueError
                      [Lit "Invalid URL: ";
                       FmtMsg [Lit "Invalid URL format: "; FmtVal url]])
      | Err e => Err (Raise ValueError [Lit "Invalid URL: "; FmtMsg (message e)])
      end.
Proof.
  unfold _configure_ollama. destruct (negb (truthy model_name)); [done|].
  pose proof (ollama_url_selection config) as Hsel.
  cbn [py_get bind] in Hsel |- *.
  set (u1 := match sget "url" config with Some v => v | None => PNone end) in *.
  destruct (if truthy u1 then Ok u1
            else Ok match sget "api_url" config with Some v => v | None => PNone end)
    as [u2|]; [|done].
  cbn [bind] in Hsel |- *.
  destruct (if truthy u2 then Ok u2
            else Ok match sget "base_url" config with Some v => v | None => PNone end)
    as [u3|]; [|done].
  cbn [bind] in Hsel |- *.
  destruct (if truthy u3 then Ok u3
            else Ok match sget "api_base" config with Some v => v | None => PNone end)
    as [u4|]; [|done].
  cbn [bind] in Hsel |- *.
  injection Hsel as ->. cbv zeta.
  unfold _validate_url.
  destruct (urlparse (url_by_priority config)) as [parsed|e]; cbn [bind]; [|done].
  cbn [truthy]. by destruct (_ && _).
Qed.


(** C2, amended. [configure_embedder] is a dispatch table.  Without a
    configuration it returns the [OpenAIEmbeddingFunction] of model
    [text-embedding-3-small] with the API key of the environment
    variable [OPENAI_API_KEY].  For a provider of the table other than
    [custom], when the ["config"] entry is absent or a dict, it returns
    what that provider's configurator returns for the config (empty when
    absent) and, as model name, the config's ["model"] ([None] when
    absent), and calls nothing else.  For [custom] it calls the
    configurator with the config alone, whatever the config is, and no
    model name is looked up.  The table has the eleven providers. *)
Theorem configure_embedder_dispatches :
  configure_embedder getenv self None
    = ([], Ok (PEmbFn "OpenAIEmbeddingFunction"
                 [("api_key", os_getenv getenv "OPENAI_API_KEY");
                  ("model_name", PStr "text-embedding-3-small")]))
  /\ (forall ec p config,
        sget "provider" ec = Some (PStr p) ->
        In p supported_providers -> p <> "custom" ->
        config_entry ec config ->
        exists f,
          dict_get String.eqb p (embedding_functions self) = Some f
          /\ fn_name f = String.append "_configure_" p
          /\ let args := [PDict config; default PNone (sget "model" config)] in
             configure_embedder getenv self (Some ec)
               = ([(fn_name f, args)], fn_call f args))
  /\ (forall ec,
        sget "provider" ec = Some (PStr "custom") ->
        let config := default (PDict []) (sget "config" ec) in
        dict_get String.eqb "custom" (embedding_functions self)
          = Some (takes1 "_configure_custom" (_configure_custom validate_embedding_function))
        /\ configure_embedder getenv self (Some ec)
           = ([("_configure_custom", [config])],
              _configure_custom validate_embedding_function config))
  /\ dict_keys (embedding_functions self) = supported_providers
  /\ List.length supported_providers = 11%nat.
Proof.
  split; [reflexivity|]. split; [|split; [|split; reflexivity]].
  - intros ec p config Hp Hin Hne Hc.
    assert (Hf : exists f,
               dict_get String.eqb p (embedding_functions self) = Some f
               /\ fn_name f = String.append "_configure_" p).
    { unfold supported_providers in Hin. simpl in Hin.
      repeat (destruct Hin as [<-|Hin]; [eexists; split; reflexivity|]).
      done. }
    destruct Hf as (f & Hf & Hname). exists f.
    split; [exact Hf|]. split; [exact Hname|].
    by apply (dispatch_provider ec p f config).
  - intros ec Hp config. split; [reflexivity|]. by apply (dispatch_custom ec).
Qed.

(** C3, amended. For every configuration whose ["config"] entry is
    absent or a dict and whose ["provider"] value is hashable and is not
    one of the eleven keys, [configure_embedder] raises an [Exception]
    whose message names the provider and lists the supported providers,
    and it calls no configurator. *)
Theorem configure_embedder_unsupported (ec config : pydict) :
  let provider := default PNone (sget "provider" ec) in
  config_entry ec config ->
  hashable provider = true ->
  (forall p, provider = PStr p -> ~ In p supported_providers) ->
  configure_embedder getenv self (Some ec)
    = ([], Err (Raise Exception
                  [Lit "Unsupported embedding provider: "; FmtVal provider;
                   Lit ", supported providers: ";
                   FmtKeys ["openai"; "azure"; "ollama"; "vertexai"; "google";
                            "cohere"; "voyageai"; "bedrock"; "huggingface";
                            "watson"; "custom"]])).
Proof. intros provider Hc Hh Hnot. by apply (dispatch_unsupported ec config). Qed.

End Facts.

Import Samples.


Lemma configure_embedder_dispatches_witness :
  exists f,
    dict_get String.eqb "ollama" (embedding_functions sample_configurator) = Some f
    /\ fn_name f = "_configure_ollama"
    /\ sample_configure_embedder (Some ollama_config)
       = ([(fn_name f,
            [PDict [("model", PStr "nomic-embed-text")]; PStr "nomic-embed-text"])],
          fn_call f
            [PDict [("model", PStr "nomic-embed-text")]; PStr "nomic-embed-text"]).
Proof.
  apply (proj1 (proj2 (configure_embedder_dispatches no_env sample_urlparse true accept_all))
           ollama_config "ollama" [("model", PStr "nomic-embed-text")]).
  - reflexivity.
  - simpl. tauto.
  - discriminate.
  - left. reflexivity.
Defined.

(** C2 as stated fails when the ["config"] entry is no dict.  For
    [{"provider": "watson", "config": None}] the provider is in the
    table, yet nothing is dispatched: reading the model name raises
    [AttributeError], which the Watson configurator returns for no model
    name at all, installed or not. *)
Lemma watson_without_dict_not_dispatched :
  sget "provider" watson_null_config = Some (PStr "watson")
  /\ In "watson" supported_providers
  /\ sample_configure_embedder (Some watson_null_config)
     = ([], Err (Raise AttributeError
                   [Lit "'"; Lit "NoneType"; Lit "' object has no attribute 'get'"]))
  /\ (forall installed model_name,
        (sample_configure_embedder (Some watson_null_config)).2
        <> _configure_watson installed PNone model_name).
Proof.
  split; [reflexivity|]. split; [simpl; tauto|]. split; [reflexivity|].
  intros [] model_name; discriminate.
Qed.

Lemma configure_embedder_unsupported_witness :
  sample_configure_embedder (Some mistral_config)
  = ([], Err (Raise Exception
                [Lit "Unsupported embedding provider: "; FmtVal (PStr "mistral");
                 Lit ", supported providers: ";
                 FmtKeys ["openai"; "azure"; "ollama"; "vertexai"; "google";
                          "cohere"; "voyageai"; "bedrock"; "huggingface";
                          "watson"; "custom"]])).
Proof.
  apply (configure_embedder_unsupported no_env sample_urlparse true accept_all
           mistral_config [("model", PStr "m")]).
  - left. reflexivity.
  - reflexivity.
  - intros p [= <-]. simpl. intuition discriminate.
Defined.

(** C3 as stated fails in two ways.  For
    [{"provider": "mistral", "config": None}] the provider is not in the
    table, but the exception is the [AttributeError] of reading the
    model name, which names neither the provider nor the supported
    ones.  For [{"provider": ["openai"]}] the membership test itself
    raises [TypeError]. *)
Lemma unsupported_provider_without_dict :
  (sget "provider" mistral_null_config = Some (PStr "mistral")
   /\ ~ In "mistral" supported_providers
   /\ sample_configure_embedder (Some mistral_null_config)
      = ([], Err (Raise AttributeError
                    [Lit "'"; Lit "NoneType"; Lit "' object has no attribute 'get'"])))
  /\ (sget "provider" list_provider_config = Some (PList [PStr "openai"])
      /\ sample_configure_embedder (Some list_provider_config)
         = ([], Err (Raise TypeError
                       [Lit "unhashable type: '"; Lit "list"; Lit "'"]))).
Proof.
  repeat split; try reflexivity.
  simpl. intuition discriminate.
Qed.

End EmbeddingFacts.

(** ** Sums, means and tables of scores *)

Module EvaluatorLemmas.
Import Py CrewEvaluator Averages.

Lemma py_sum_total xs : py_sum xs = total xs.
Proof.
  unfold py_sum, total. apply fold_symmetric.
  - intros x y z. apply Qcplus_assoc.
  - intros y. apply Qcplus_comm.
Qed.

Lemma py_sum_int_fold zs : py_sum_int zs = fold_right Z.add 0 zs.
Proof.
  unfold py_sum_int. apply fold_symmetric; intros; lia.
Qed.

Lemma total_perm xs ys : Permutation xs ys -> total xs = total ys.
Proof.
  induction 1 as [|x xs ys _ IH|x y xs|xs ys zs _ IH1 _ IH2]; simpl.
  - reflexivity.
  - by rewrite IH.
  - rewrite !Qcplus_assoc. f_equal. apply Qcplus_comm.
  - by rewrite IH1.
Qed.

Lemma of_int_add a b : of_int (a + b) = (of_int a + of_int b)%Qc.
Proof.
  apply Qc_is_canon. unfold of_int. cbn [this Qcplus Q2Qc].
  rewrite !Qred_correct, inject_Z_plus. reflexivity.
Qed.

Lemma of_int_fold zs : of_int (fold_right Z.add 0 zs) = total (map of_int zs).
Proof.
  induction zs as [|z zs IH]; simpl; [reflexivity|].
  by rewrite of_int_add, IH.
Qed.

Lemma py_div_mean xs :
  xs <> [] -> py_div (py_sum xs) (List.length xs) = Ok (mean xs).
Proof.
  intros Hxs. unfold mean. rewrite py_sum_total. by destruct xs.
Qed.

Lemma py_div_total x (xs : list Qc) n :
  (1 <= n)%nat -> List.length xs = n -> x = total xs -> py_div x n = Ok (mean xs).
Proof.
  intros Hn Hlen ->. unfold mean. rewrite Hlen. destruct n; [lia|done].
Qed.

(** Lists and their positions. *)

Lemma map_nth_seq {A} (d : A) (l : list A) :
  map (fun j => nth j l d) (seq 0 (List.length l)) = l.
Proof.
  induction l as [|a l IH]; [reflexivity|].
  cbn [List.length seq map nth]. f_equal.
  rewrite <- seq_shift, map_map. exact IH.
Qed.

Lemma zip_star_columns {A} (d : A) (ls : list (list A)) m :
  ls <> [] ->
  Forall (fun l => List.length l = m) ls ->
  zip_star ls = map (fun j => map (fun l => nth j l d) ls) (seq 0 m).
Proof.
  induction ls as [|l ls IH]; [done|].
  intros _ Hall. apply Forall_cons in Hall as [Hl Hall].
  destruct ls as [|l' ls].
  - simpl. rewrite <- (map_nth_seq d l) at 1. rewrite Hl. by rewrite map_map.
  - change (zip_star (l :: l' :: ls)) with (zip_with cons l (zip_star (l' :: ls))).
    rewrite IH by done.
    rewrite <- (map_nth_seq d l) at 1. rewrite Hl.
    change (zip_with cons ((fun j => nth j l d) <$> seq 0 m)
              ((fun j => map (fun l0 => nth j l0 d) (l' :: ls)) <$> seq 0 m)
            = map (fun j => map (fun l0 => nth j l0 d) (l :: l' :: ls)) (seq 0 m)).
    rewrite zip_with_fmap_l, zip_with_fmap_r, zip_with_diag. reflexivity.
Qed.

Lemma mapR_pure {A B} (f : A -> result B) (g : A -> B) (l : list A) :
  (forall a, In a l -> f a = Ok (g a)) -> mapR f l = Ok (map g l).
Proof.
  induction l as [|a l IH]; intros Hf; [reflexivity|].
  simpl. rewrite (Hf a) by (by left). simpl.
  rewrite IH by (intros; apply Hf; by right). reflexivity.
Qed.

Lemma mapM_pure {A B} (f : A -> ev B) (g : A -> B) (l : list A) (d : scores) :
  (forall a, In a l -> f a d = (d, Ok (g a))) -> mapM f l d = (d, Ok (map g l)).
Proof.
  induction l as [|a l IH]; intros Hf; [reflexivity|].
  simpl. unfold bind_ev at 1. rewrite (Hf a) by (by left).
  unfold bind_ev at 1. rewrite IH by (intros; apply Hf; by right). reflexivity.
Qed.

Lemma py_index_nth {A} (d : A) (l : list A) i :
  (i < List.length l)%nat -> py_index l i = Ok (nth i l d).
Proof.
  intros Hi. unfold py_index.
  destruct (nth_error l i) as [x|] eqn:E.
  - by rewrite (nth_error_nth _ _ d E).
  - apply nth_error_None in E. lia.
Qed.

Lemma in_enumerate {A} (l : list A) i a :
  In (i, a) (enumerate l) -> (i < List.length l)%nat.
Proof.
  unfold enumerate. intros Hin. apply in_combine_l in Hin.
  apply in_seq in Hin. lia.
Qed.

(** Dictionaries keyed by runs. *)

Lemma Zeqb_eq a b : Z.eqb a b = true <-> a = b.
Proof. apply Z.eqb_eq. Qed.

Lemma runs_NoDup n : NoDup (runs n).
Proof.
  unfold runs. apply NoDup_fmap_2; [apply _|]. apply NoDup_ListNoDup, seq_NoDup.
Qed.

Lemma runs_length n : List.length (runs n) = n.
Proof. unfold runs. by rewrite length_map, length_seq. Qed.

Lemma of_run_in (d : scores) run :
  In run (dict_keys d) -> In (of_run d run) (dict_values d).
Proof.
  unfold of_run. induction d as [|[k v] d IH]; simpl; [done|].
  intros [->|Hin].
  - rewrite Z.eqb_refl. by left.
  - destruct (run =? k); [by left | right; by apply IH].
Qed.

Lemma values_of_keys (d : scores) :
  NoDup (dict_keys d) -> dict_values d = map (of_run d) (dict_keys d).
Proof.
  induction d as [|[k v] d IH]; [reflexivity|].
  cbn [dict_keys dict_values map fst snd]. intros Hnd.
  apply NoDup_cons in Hnd as [Hk Hnd]. f_equal.
  - unfold of_run. simpl. by rewrite Z.eqb_refl.
  - fold (dict_values d). rewrite IH by done. apply map_ext_in.
    intros k' Hk'. unfold of_run. simpl.
    destruct (k' =? k) eqn:E; [|done].
    apply Z.eqb_eq in E. subst k'. destruct Hk. by apply list_elem_of_In.
Qed.

Lemma dict_get_snoc_ne (k k' : Z) (v : list Qc) (d : scores) :
  k <> k' -> dict_get Z.eqb k' (d ++ [(k, v)]) = dict_get Z.eqb k' d.
Proof.
  intros Hne. induction d as [|[k0 v0] d IH]; simpl.
  - destruct (Z.eqb_spec k' k); [congruence | done].
  - by rewrite IH.
Qed.

(** [d[k].append(x)] adds [x] at the end of the list of [k] ... *)
Lemma dd_append_same k x d : of_run (dd_append k x d) k = of_run d k ++ [x].
Proof.
  unfold dd_append, dd_getitem, of_run.
  destruct (dict_get Z.eqb k d) as [v|] eqn:E;
    by rewrite (dict_get_set_eq Z.eqb Zeqb_eq).
Qed.

(** ... and leaves the other keys alone. *)
Lemma dd_append_other k k' x d :
  k <> k' -> dict_get Z.eqb k' (dd_append k x d) = dict_get Z.eqb k' d.
Proof.
  intros Hne. unfold dd_append, dd_getitem.
  destruct (dict_get Z.eqb k d) as [v|] eqn:E;
    rewrite (dict_get_set_ne Z.eqb Zeqb_eq) by done; [done|].
  by apply dict_get_snoc_ne.
Qed.

Lemma find_none_forall {A} (f : A -> bool) (l : list A) :
  List.find f l = None <-> Forall (fun a => f a = false) l.
Proof.
  induction l as [|a l IH]; simpl.
  - split; [constructor | done].
  - destruct (f a) eqn:E.
    + split; [done|]. intros Hall. apply Forall_cons in Hall as [? _]. congruence.
    + rewrite IH. split; [by constructor | by intros [_ ?]%Forall_cons].
Qed.

Section Keyed.
Variables (d : scores) (n : nat).
Hypothesis keys : Permutation (dict_keys d) (runs n).

Lemma keyed_NoDup : NoDup (dict_keys d).
Proof. rewrite keys. apply runs_NoDup. Qed.

Lemma keyed_length : List.length d = n.
Proof.
  rewrite <- (runs_length n), <- (Permutation_length keys).
  unfold dict_keys. by rewrite length_map.
Qed.

Lemma keyed_in run : In run (runs n) -> In run (dict_keys d).
Proof. intros Hin. eapply Permutation_in; [symmetry; exact keys | exact Hin]. Qed.

Lemma keyed_values : Permutation (dict_values d) (map (of_run d) (runs n)).
Proof.
  rewrite (values_of_keys d keyed_NoDup). by apply Permutation_map.
Qed.

Lemma keyed_getitem run :
  In run (runs n) -> getitem run d = (d, Ok (of_run d run)).
Proof.
  intros Hin. apply keyed_in in Hin.
  destruct (dict_get_in_keys Z.eqb Zeqb_eq run d Hin) as [v Hv].
  unfold getitem, dd_getitem, of_run. by rewrite Hv.
Qed.

Lemma keyed_total (f : list Qc -> Qc) :
  total (map f (dict_values d)) = total (map (fun run => f (of_run d run)) (runs n)).
Proof.
  apply total_perm. rewrite <- (map_map (of_run d) f).
  apply Permutation_map, keyed_values.
Qed.

End Keyed.

Lemma bind_ev_ok {A B} (m : ev A) (k : A -> ev B) d d' a :
  m d = (d', Ok a) -> bind_ev m k d = k a d'.
Proof. intros Hm. unfold bind_ev. by rewrite Hm. Qed.

(** The stages of [print_crew_evaluation_result] after [n] complete
    runs of a crew with at least one task. *)
Section Recorded.
Variables (cls : ClassAttrs) (self : CrewEvaluator) (n : nat).
Hypothesis Hrec : recorded (crew self) cls n.
Hypothesis Htasks : tasks (crew self) <> [].

Let d := tasks_scores cls.
Let m := List.length (tasks (crew self)).

Lemma recorded_tasks : (1 <= m)%nat.
Proof. subst m. destruct (tasks (crew self)); [done | simpl; lia]. Qed.

Lemma recorded_values_nonempty : dict_values d <> [].
Proof.
  pose proof (keyed_length d n (scores_keys _ _ _ Hrec)) as Hlen.
  pose proof (some_run _ _ _ Hrec).
  unfold dict_values. destruct d; simpl in *; [lia | done].
Qed.

Lemma recorded_run_length run :
  In run (runs n) -> List.length (of_run d run) = m.
Proof.
  intros Hin. apply (keyed_in d n (scores_keys _ _ _ Hrec)) in Hin.
  apply of_run_in in Hin.
  pose proof (one_score_per_task _ _ _ Hrec) as Hall.
  rewrite List.Forall_forall in Hall. by apply Hall.
Qed.

Lemma stage_task_averages :
  mapR (fun scores => py_div (py_sum scores) (List.length scores))
       (zip_star (dict_values d))
  = Ok (map (task_average cls n) (seq 0 m)).
Proof.
  rewrite (zip_star_columns (Q2Qc 0) (dict_values d) m
             recorded_values_nonempty (one_score_per_task _ _ _ Hrec)).
  rewrite (mapR_pure _ mean).
  - f_equal. rewrite map_map. apply map_ext. intros j.
    unfold task_average, mean. rewrite !length_map, runs_length.
    unfold dict_values at 2. rewrite length_map.
    rewrite (keyed_length d n (scores_keys _ _ _ Hrec)). f_equal.
    apply (keyed_total d n (scores_keys _ _ _ Hrec) (fun l => nth j l (Q2Qc 0))).
  - intros scores Hin. apply in_map_iff in Hin as (j & <- & _).
    apply py_div_mean. pose proof recorded_values_nonempty.
    by destruct (dict_values d).
Qed.

Lemma stage_crew_average :
  py_div (py_sum (map (task_average cls n) (seq 0 m)))
         (List.length (map (task_average cls n) (seq 0 m)))
  = Ok (crew_average cls n m).
Proof.
  apply py_div_mean. pose proof recorded_tasks.
  destruct m; [lia | done].
Qed.

Lemma stage_task_scores i :
  (i < m)%nat ->
  mapM (fun run => bind_ev (getitem run) (fun l => lift (py_index l i))) (runs n) d
  = (d, Ok (map (fun run => score_at cls run i) (runs n))).
Proof.
  intros Hi. apply mapM_pure. intros run Hin.
  rewrite (bind_ev_ok _ _ _ _ _ (keyed_getitem d n (scores_keys _ _ _ Hrec) run Hin)).
  unfold lift, score_at. fold d.
  rewrite (py_index_nth (Q2Qc 0)); [done|].
  rewrite (recorded_run_length run Hin). exact Hi.
Qed.

Lemma stage_crew_scores :
  mapM (fun run =>
          bind_ev (getitem run) (fun xs =>
          bind_ev (getitem run) (fun ys =>
          lift (py_div (py_sum xs) (List.length ys))))) (runs n) d
  = (d, Ok (map (crew_score cls) (runs n))).
Proof.
  apply mapM_pure. intros run Hin.
  pose proof (keyed_getitem d n (scores_keys _ _ _ Hrec) run Hin) as Hget.
  rewrite (bind_ev_ok _ _ _ _ _ Hget), (bind_ev_ok _ _ _ _ _ Hget).
  unfold lift, crew_score. fold d. rewrite py_div_mean; [done|].
  pose proof (recorded_run_length run Hin). pose proof recorded_tasks.
  destruct (of_run d run); simpl in *; [lia | done].
Qed.

Lemma stage_run_exec_times :
  map (fun '(_, tasks_exec_times) => py_int (py_sum tasks_exec_times))
      (run_execution_times cls)
  = map (fun ts => py_int (total ts)) (dict_values (run_execution_times cls)).
Proof.
  unfold dict_values. rewrite map_map. apply map_ext.
  intros [k ts]. simpl. by rewrite py_sum_total.
Qed.

Lemma stage_execution_time_avg :
  let run_exec_times :=
    map (fun ts => py_int (total ts)) (dict_values (run_execution_times cls)) in
  py_div (Q2Qc (inject_Z (py_sum_int run_exec_times))) (List.length run_exec_times)
  = Ok (mean (map (fun run => Q2Qc (inject_Z (shown_run_time cls run))) (runs n))).
Proof.
  intros run_exec_times. pose proof (times_keys _ _ _ Hrec) as Hkeys.
  assert (Hlen : List.length run_exec_times = n).
  { subst run_exec_times. unfold dict_values. rewrite !length_map.
    apply (keyed_length _ _ Hkeys). }
  rewrite Hlen. apply py_div_total.
  - apply (some_run _ _ _ Hrec).
  - by rewrite length_map, runs_length.
  - rewrite py_sum_int_fold. fold (of_int (fold_right Z.add 0 run_exec_times)).
    rewrite of_int_fold. subst run_exec_times. rewrite map_map.
    apply (keyed_total _ n Hkeys (fun ts => of_int (py_int (total ts)))).
Qed.

Lemma stage_len : read_len d = (d, Ok n).
Proof.
  unfold read_len. by rewrite (keyed_length d n (scores_keys _ _ _ Hrec)).
Qed.

Lemma stage_avg_score i :
  (i < m)%nat ->
  py_index (map (task_average cls n) (seq 0 m)) i = Ok (task_average cls n i).
Proof.
  intros Hi. rewrite (py_index_nth (task_average cls n 0%nat)).
  - by rewrite map_nth, seq_nth.
  - by rewrite length_map, length_seq.
Qed.

Lemma stage_task_rows i task :
  In (i, task) (enumerate (tasks (crew self))) ->
  task_rows self (map (task_average cls n) (seq 0 m)) i task d
  = (d, Ok ([[Numbered "Task " (i + 1)]
               ++ map (fun run => Fixed 1 (score_at cls run i)) (runs n)
               ++ [Fixed 1 (task_average cls n i);
                   first_agent_cell (processed_by_agents task)]]
            ++ map agent_row (tl (processed_by_agents task))
            ++ (if Z.of_nat i <? Z.of_nat m - 1 then [blank_row] else []))).
Proof.
  intros Hin. apply in_enumerate in Hin. fold m in Hin.
  unfold task_rows.
  rewrite (bind_ev_ok _ _ _ _ _ stage_len).
  rewrite (bind_ev_ok _ _ _ _ _ (stage_task_scores i Hin)).
  unfold lift at 1. rewrite (stage_avg_score i Hin).
  unfold bind_ev, ret. by rewrite map_map.
Qed.

Lemma print_body_recorded :
  print_body cls self d
  = (d, Ok (table_of (crew self) cls n (mean_of_shown_truncated cls n))).
Proof.
  unfold print_body.
  unfold read_values at 1. unfold bind_ev at 1.
  unfold lift at 1. rewrite stage_task_averages. unfold bind_ev at 1.
  unfold lift at 1. rewrite stage_crew_average. unfold bind_ev at 1.
  rewrite (bind_ev_ok _ _ _ _ _ stage_len).
  rewrite (bind_ev_ok _ _ _ _ _
             (mapM_pure _ (fun '(i, task) => _) _ d
                (fun '(i, task) Hin => stage_task_rows i task Hin))).
  rewrite (bind_ev_ok _ _ _ _ _ stage_len).
  rewrite (bind_ev_ok _ _ _ _ _ stage_crew_scores).
  unfold self_run_execution_times. rewrite stage_run_exec_times.
  unfold lift at 1. rewrite stage_execution_time_avg.
  unfold bind_ev, ret, table_of, mean_of_shown_truncated. fold m.
  by rewrite !map_map.
Qed.

End Recorded.

End EvaluatorLemmas.

(** ** Crew evaluator *)

Module EvaluatorFacts.
Import Py CrewEvaluator Averages EvaluatorLemmas.

Lemma class_attrs_eta cls :
  {| tasks_scores := tasks_scores cls;
     run_execution_times := run_execution_times cls;
     iteration := iteration cls |} = cls.
Proof. by destruct cls. Qed.

Lemma print_recorded cls self n :
  recorded (crew self) cls n ->
  tasks (crew self) <> [] ->
  print_crew_evaluation_result cls self
  = (cls, Ok (table_of (crew self) cls n (mean_of_shown_truncated cls n))).
Proof.
  intros Hrec Htasks. unfold print_crew_evaluation_result, self_tasks_scores.
  rewrite (print_body_recorded cls self n Hrec Htasks).
  by rewrite class_attrs_eta.
Qed.

Lemma print_no_scores cls self :
  tasks_scores cls = [] ->
  print_crew_evaluation_result cls self = (cls, Err division_by_zero).
Proof.
  intros Hnone. unfold print_crew_evaluation_result, self_tasks_scores, print_body.
  rewrite Hnone. cbn. rewrite <- Hnone. by rewrite class_attrs_eta.
Qed.


(** C10. When [tasks_scores] is empty, [zip] yields nothing, so the list
    of task averages is empty, and [print_crew_evaluation_result] fails
    with the division by zero of the crew average. *)
Theorem print_without_scores_divides_by_zero cls self :
  tasks_scores cls = [] ->
  zip_star (dict_values (tasks_scores cls)) = []
  /\ mapR (fun scores => py_div (py_sum scores) (List.length scores))
          (zip_star (dict_values (tasks_scores cls))) = Ok []
  /\ py_div (py_sum []) (List.length (@nil Qc)) = Err division_by_zero
  /\ print_crew_evaluation_result cls self
     = (cls, Err (Raise ZeroDivisionError [Lit "division by zero"])).
Proof.
  intros Hnone. rewrite Hnone. repeat split.
  by apply print_no_scores.
Qed.

(** [set_iteration] writes to the instance: the class's [iteration], and
    with it what every other instance reads, stays. *)
Lemma set_iteration_own cls self other k :
  own_iteration other = None ->
  self_iteration cls (set_iteration self k) = k
  /\ self_iteration cls other = iteration cls.
Proof. intros Hnone. unfold self_iteration. by rewrite Hnone. Qed.

Section Evaluate.
Variable execute_sync : Task -> TaskOutput.
Variable llm_str : LLM -> string.

(** C7. For every task output, [evaluate] raises [ValueError] exactly
    when no task of the crew has the output's description or the result
    of the evaluation task carries no [TaskEvaluationPydanticOutput];
    whenever it raises, [tasks_scores] and [run_execution_times] are as
    before; when it does not raise, the list of the current iteration
    gains exactly one element at its end in each table (the quality, and
    the execution time of the task), and all other iterations keep
    their lists. *)
Theorem evaluate_raises_or_records cls self task_output :
  let current_task :=
    List.find (fun task => String.eqb (description task) (output_description task_output))
              (tasks (crew self)) in
  let parsed (t : Task) :=
    pydantic (execute_sync
                (_evaluation_task self (_evaluator_agent self) t (raw task_output))) in
  let run := self_iteration cls self in
  let after := (evaluate execute_sync llm_str cls self task_output).1.1 in
  let outcome := (evaluate execute_sync llm_str cls self task_output).2 in
  ((exists m, outcome = Err (Raise ValueError m))
     <-> (Forall (fun task => description task <> output_description task_output)
                 (tasks (crew self))
          \/ exists t, current_task = Some t
                       /\ forall q, parsed t <> Some (TaskEvaluationPydanticOutput q)))
  /\ (forall e, outcome = Err e ->
        tasks_scores after = tasks_scores cls
        /\ run_execution_times after = run_execution_times cls)
  /\ (outcome = Ok tt ->
        exists t q,
          current_task = Some t
          /\ parsed t = Some (TaskEvaluationPydanticOutput q)
          /\ of_run (tasks_scores after) run = of_run (tasks_scores cls) run ++ [q]
          /\ of_run (run_execution_times after) run
             = of_run (run_execution_times cls) run ++ [_execution_time t]
          /\ forall k, k <> run ->
               dict_get Z.eqb k (tasks_scores after) = dict_get Z.eqb k (tasks_scores cls)
               /\ dict_get Z.eqb k (run_execution_times after)
                  = dict_get Z.eqb k (run_execution_times cls))
  /\ (outcome = Ok tt \/ exists m, outcome = Err (Raise ValueError m)).
Proof.
  intros current_task parsed run after outcome.
  subst after outcome. unfold evaluate. fold current_task.
  destruct current_task as [t|] eqn:Hfind.
  - fold (parsed t). destruct (parsed t) as [[q|name]|] eqn:Hparsed; cbn [fst snd].
    + split; [split|split; [|split]].
      * intros [m [=]].
      * intros [Hnone|(t' & [= <-] & Hq)]; [|by destruct (Hq q)].
        exfalso. apply find_some in Hfind as [Hin Heq].
        rewrite List.Forall_forall in Hnone. apply (Hnone t Hin).
        by apply String.eqb_eq.
      * intros e [=].
      * intros _. exists t, q. split; [done|]. split; [done|].
        split; [apply dd_append_same|]. split; [apply dd_append_same|].
        intros k Hk. split; by apply dd_append_other.
      * by left.
    + split; [split|split; [|split]].
      * intros _. right. exists t. split; [done|]. intros q. congruence.
      * eauto.
      * done.
      * intros [=].
      * right. eauto.
    + split; [split|split; [|split]].
      * intros _. right. exists t. split; [done|]. intros q. congruence.
      * eauto.
      * done.
      * intros [=].
      * right. eauto.
  - cbn [fst snd]. split; [split|split; [|split]].
    + intros _. left. apply find_none_forall in Hfind.
      eapply List.Forall_impl; [|exact Hfind]. intros task Hne. by apply String.eqb_neq.
    + eauto.
    + done.
    + intros [=].
    + right. eauto.
Qed.

(** C9. [tasks_scores], [run_execution_times] and [iteration] belong to
    the class, and constructing an evaluator assigns none of them: the
    scores and times recorded before are all still there, the new
    instance reads the class's iteration, and it reads the very tables
    that any other instance reads. *)
Theorem init_keeps_recorded_scores cls self_id c llm_or_name :
  let after := (__init__ cls self_id c llm_or_name).1 in
  let self := (__init__ cls self_id c llm_or_name).2 in
  after = cls
  /\ self_tasks_scores after self = tasks_scores cls
  /\ self_run_execution_times after self = run_execution_times cls
  /\ own_iteration self = None
  /\ self_iteration after self = iteration cls
  /\ (forall other : CrewEvaluator,
        self_tasks_scores after other = self_tasks_scores after self
        /\ self_run_execution_times after other = self_run_execution_times after self)
  /\ (forall other task_output,
        let recorded_by_other :=
          (evaluate execute_sync llm_str after other task_output).1.1 in
        self_tasks_scores recorded_by_other self = tasks_scores recorded_by_other
        /\ self_run_execution_times recorded_by_other self
           = run_execution_times recorded_by_other).
Proof. repeat split. Qed.

End Evaluate.

Import Samples.

(** The figures of the table in the docstring of
    [print_crew_evaluation_result]: 9.3 and 9.0 for the tasks, 9.0, 9.5
    and 9.0 for the runs, 9.2 for the crew, and 42, 79, 52 and 57
    seconds. *)
Example docstring_task_averages :
  map (fun i => this (task_average three_runs 3 i)) [0; 1]%nat = [28 # 3; 9 # 1]%Q.
Proof. vm_compute. reflexivity. Qed.

Example docstring_crew_scores :
  map (fun run => this (crew_score three_runs run)) (runs 3) = [9 # 1; 19 # 2; 9 # 1]%Q.
Proof. vm_compute. reflexivity. Qed.

Example docstring_crew_average : this (crew_average three_runs 3 2) = (55 # 6)%Q.
Proof. vm_compute. reflexivity. Qed.

Example docstring_times :
  map (shown_run_time three_runs) (runs 3) = [42; 79; 52]
  /\ mean_of_shown_truncated three_runs 3 = 57.
Proof. vm_compute. split; reflexivity. Qed.

(** A task output that no task of the crew produced, and an evaluation
    that comes back unstructured: both raise and record nothing. *)
Example evaluate_unknown_task :
  evaluate scores_nine model two_quick_runs (evaluator_of quick_crew)
           (scores_nine (sample_task "other" [] (qc 1 2)))
  = (two_quick_runs, evaluator_of quick_crew,
     Err (Raise ValueError
            [Lit "Task to evaluate and task output are required for evaluation"])).
Proof. reflexivity. Qed.

Example evaluate_unstructured_result :
  evaluate answers_freely model two_quick_runs (evaluator_of quick_crew)
           (scores_nine (sample_task "lookup" [] (qc 1 2)))
  = (two_quick_runs, evaluator_of quick_crew,
     Err (Raise ValueError [Lit "Evaluation result is not in the expected format"])).
Proof. reflexivity. Qed.

(** Before [set_iteration], an evaluator records under the class's
    iteration 0; a second evaluator then sees that score. *)
Example evaluate_records_for_all :
  let first := evaluator_of quick_crew in
  let after :=
    (evaluate scores_nine model no_scores first
              (scores_nine (sample_task "lookup" [] (qc 1 2)))).1.1 in
  let second := (__init__ after 1%nat research_crew (ModelName "gpt-4o")).2 in
  map (fun '(run, l) => (run, map this l)) (self_tasks_scores after second)
  = [(0, [9 # 1]%Q)].
Proof. vm_compute. reflexivity. Qed.


Lemma quick_runs_recorded : recorded (crew (evaluator_of quick_crew)) two_quick_runs 2.
Proof. split; [lia | reflexivity | reflexivity | repeat constructor]. Qed.

Lemma idle_run_recorded : recorded (crew (evaluator_of idle_crew)) one_idle_run 1.
Proof. split; [lia | reflexivity | reflexivity | repeat constructor]. Qed.


Lemma print_without_scores_divides_by_zero_witness :
  print_crew_evaluation_result no_scores (evaluator_of research_crew)
  = (no_scores, Err (Raise ZeroDivisionError [Lit "division by zero"])).
Proof.
  apply (print_without_scores_divides_by_zero no_scores (evaluator_of research_crew)).
  reflexivity.
Defined.

Lemma evaluate_raises_or_records_witness :
  let cls := two_quick_runs in
  let self := set_iteration (evaluator_of quick_crew) 2 in
  let task_output := scores_nine (sample_task "lookup" [] (qc 1 2)) in
  let after := (evaluate scores_nine model cls self task_output).1.1 in
  exists t q,
    List.find (fun task => String.eqb (description task) (output_description task_output))
              (tasks (crew self)) = Some t
    /\ pydantic (scores_nine
                   (_evaluation_task self (_evaluator_agent self) t (raw task_output)))
       = Some (TaskEvaluationPydanticOutput q)
    /\ of_run (tasks_scores after) 2 = of_run (tasks_scores cls) 2 ++ [q]
    /\ of_run (run_execution_times after) 2
       = of_run (run_execution_times cls) 2 ++ [_execution_time t]
    /\ forall k, k <> 2 ->
         dict_get Z.eqb k (tasks_scores after) = dict_get Z.eqb k (tasks_scores cls)
         /\ dict_get Z.eqb k (run_execution_times after)
            = dict_get Z.eqb k (run_execution_times cls).
Proof.
  apply (evaluate_raises_or_records scores_nine model two_quick_runs
           (set_iteration (evaluator_of quick_crew) 2)
           (scores_nine (sample_task "lookup" [] (qc 1 2)))).
  reflexivity.
Defined.

End EvaluatorFacts.

(** ** Embedding configurator: error behaviour and what is dispatched *)

Module EmbeddingMore.
Import Py EmbeddingConfigurator.
Local Open Scope py_scope.

Section More.
Variable getenv : string -> option string.
Variable urlparse : pyval -> result ParseResult.
Variable watson_installed : bool.
Variable validate_embedding_function : pyval -> option (list msg_part).

Local Abbreviation self :=
  (__init__ getenv urlparse watson_installed validate_embedding_function).

Lemma validate_url_eq (url : pyval) :
  _validate_url urlparse url
  = match urlparse url with
    | Ok parsed =>
        if negb (String.eqb (scheme parsed) "") && negb (String.eqb (netloc parsed) "")
        then Ok url
        else Err (Raise ValueError
                    [Lit "Invalid URL: ";
                     FmtMsg [Lit "Invalid URL format: "; FmtVal url]])
    | Err e => Err (Raise ValueError [Lit "Invalid URL: "; FmtMsg (message e)])
    end.
Proof.
  unfold _validate_url. destruct (urlparse url) as [parsed|e]; cbn [bind]; [|done].
  cbn [truthy]. by destruct (_ && _).
Qed.

(** X1. [_validate_url] hands back the very URL it was given, and only
    when the parser finds both a scheme and a netloc; every failure,
    the parser's own exceptions of any kind included, reaches the
    caller as a [ValueError] whose message starts with [Invalid URL: ].
    The error for a missing part is raised inside the [try] and so is
    wrapped a second time. *)
Theorem validate_url_same_or_value_error (url : pyval) :
  (forall v, _validate_url urlparse url = Ok v ->
     v = url
     /\ exists parsed, urlparse url = Ok parsed
                       /\ scheme parsed <> "" /\ netloc parsed <> "")
  /\ (forall e, _validate_url urlparse url = Err e ->
        kind e = ValueError /\ exists m, message e = Lit "Invalid URL: " :: m)
  /\ (forall parsed, urlparse url = Ok parsed ->
        scheme parsed = "" \/ netloc parsed = "" ->
        _validate_url urlparse url
        = Err (Raise ValueError
                 [Lit "Invalid URL: ";
                  FmtMsg [Lit "Invalid URL format: "; FmtVal url]])).
Proof.
  rewrite validate_url_eq. split; [|split].
  - intros v. destruct (urlparse url) as [parsed|e]; [|done].
    destruct (negb (scheme parsed =? "")%string) eqn:Hs; [|done].
    destruct (negb (netloc parsed =? "")%string) eqn:Hn; [|done].
    cbn [andb]. intros [= <-]. split; [done|]. exists parsed.
    apply negb_true_iff in Hs, Hn. by rewrite !String.eqb_neq in *.
  - intros e. destruct (urlparse url) as [parsed|e0].
    + destruct (_ && _); [done|]. intros [= <-]. simpl. eauto.
    + intros [= <-]. simpl. eauto.
  - intros parsed -> Hlack.
    assert (negb (scheme parsed =? "")%string && negb (netloc parsed =? "")%string = false)
      as ->; [|done].
    destruct Hlack as [->| ->]; simpl; [done|]. apply andb_false_r.
Qed.

Lemma custom_eq (config : pydict) :
  _configure_custom validate_embedding_function (PDict config)
  = let custom_embedder := default PNone (sget "embedder" config) in
    if is_embedding_function custom_embedder then
      match validate_embedding_function custom_embedder with
      | None => Ok custom_embedder
      | Some m =>
          Err (Raise ValueError [Lit "Invalid custom embedding function: "; FmtMsg m])
      end
    else
      match custom_embedder with
      | PFunc (inl instance) =>
          if is_embedding_function instance then
            match validate_embedding_function instance with
            | None => Ok instance
            | Some m =>
                Err (Raise ValueError
                       [Lit "Error instantiating custom embedder: "; FmtMsg m])
            end
          else
            Err (Raise ValueError
                   [Lit "Error instantiating custom embedder: ";
                    FmtMsg [Lit "Custom embedder does not create an EmbeddingFunction instance"]])
      | PFunc (inr m) =>
          Err (Raise ValueError
                 [Lit "Error instantiating custom embedder: "; FmtMsg [Lit m]])
      | _ =>
          Err (Raise ValueError
                 [Lit "Custom embedder must be an instance of `EmbeddingFunction` or a callable that creates one"])
      end.
Proof.
  unfold _configure_custom. cbn [py_get bind]. cbv zeta.
  change (match sget "embedder" config with Some v => v | None => PNone end)
    with (default PNone (sget "embedder" config)).
  destruct (default PNone (sget "embedder" config)) as [| | | | | | | |[instance|m]|];
    cbn [is_embedding_function]; unfold validated; try reflexivity.
  - by destruct (validate_embedding_function _).
  - destruct (is_embedding_function instance); [|reflexivity].
    by destruct (validate_embedding_function _).
Qed.

(** X2. For a dict config, [_configure_custom] returns nothing but an
    [EmbeddingFunction] instance that chromadb's validation accepted:
    the configured ["embedder"] itself, or what it creates when called.
    Every failure (no embedder, a wrong kind of object, a factory that
    raises or creates something else, a rejected instance) is a
    [ValueError]; an accepted instance is returned as it is. *)
Theorem configure_custom_validated (config : pydict) :
  let outcome := _configure_custom validate_embedding_function (PDict config) in
  let embedder := default PNone (sget "embedder" config) in
  (forall v, outcome = Ok v ->
     is_embedding_function v = true
     /\ validate_embedding_function v = None
     /\ (embedder = v \/ embedder = PFunc (inl v)))
  /\ (forall e, outcome = Err e -> kind e = ValueError)
  /\ (is_embedding_function embedder = true ->
      validate_embedding_function embedder = None ->
      outcome = Ok embedder).
Proof.
  intros outcome embedder. subst outcome. rewrite custom_eq. cbv zeta. fold embedder.
  split; [|split].
  - intros v. destruct (is_embedding_function embedder) eqn:Hef.
    + destruct (validate_embedding_function embedder) eqn:Hv; [done|].
      intros [= <-]. auto.
    + destruct embedder as [| | | | | | | |[instance|m]|]; try done.
      destruct (is_embedding_function instance) eqn:Hi; [|done].
      destruct (validate_embedding_function instance) eqn:Hv; [done|].
      intros [= <-]. auto.
  - intros e. destruct (is_embedding_function embedder).
    + destruct (validate_embedding_function embedder); [|done]. by intros [= <-].
    + destruct embedder as [| | | | | | | |[instance|m]|]; try (by intros [= <-]).
      destruct (is_embedding_function instance); [|by intros [= <-]].
      destruct (validate_embedding_function instance); [|done]. by intros [= <-].
  - by intros -> ->.
Qed.

Ltac passes_through :=
  let config := fresh "config" in
  let m := fresh "m" in
  let v := fresh "v" in
  intros [|config [|m [|? ?]]] v; cbn [fn_call takes2]; try discriminate;
  destruct config; cbn; try discriminate;
  try (destruct m; cbn; try discriminate);
  by intros [= <-].

Lemma openai_returns : returns_embedding_function
  (fn_call (takes2 "_configure_openai" (_configure_openai getenv))).
Proof. passes_through. Qed.

Lemma azure_returns : returns_embedding_function
  (fn_call (takes2 "_configure_azure" _configure_azure)).
Proof. passes_through. Qed.

Lemma vertexai_returns : returns_embedding_function
  (fn_call (takes2 "_configure_vertexai" _configure_vertexai)).
Proof. passes_through. Qed.

Lemma google_returns : returns_embedding_function
  (fn_call (takes2 "_configure_google" _configure_google)).
Proof. passes_through. Qed.

Lemma cohere_returns : returns_embedding_function
  (fn_call (takes2 "_configure_cohere" _configure_cohere)).
Proof. passes_through. Qed.

Lemma voyageai_returns : returns_embedding_function
  (fn_call (takes2 "_configure_voyageai" _configure_voyageai)).
Proof. passes_through. Qed.

Lemma bedrock_returns : returns_embedding_function
  (fn_call (takes2 "_configure_bedrock" _configure_bedrock)).
Proof. passes_through. Qed.

Lemma huggingface_returns : returns_embedding_function
  (fn_call (takes2 "_configure_huggingface" _configure_huggingface)).
Proof. passes_through. Qed.

Lemma watson_returns : returns_embedding_function
  (fn_call (takes2 "_configure_watson" (_configure_watson watson_installed))).
Proof.
  intros [|config [|m [|? ?]]] v; cbn [fn_call takes2]; try discriminate.
  unfold _configure_watson. destruct watson_installed; [|discriminate].
  by intros [= <-].
Qed.

Lemma ollama_returns : returns_embedding_function
  (fn_call (takes2 "_configure_ollama" (_configure_ollama urlparse))).
Proof.
  intros [|config [|m [|? ?]]] v; cbn [fn_call takes2]; try discriminate.
  destruct config as [| | | | | |d| | |];
    try (unfold _configure_ollama; destruct (negb (truthy m)); cbn; discriminate).
  rewrite EmbeddingFacts.configure_ollama_eq. cbv zeta.
  destruct (negb (truthy m)); [discriminate|].
  destruct (urlparse _); [|discriminate].
  destruct (_ && _); [|discriminate]. by intros [= <-].
Qed.

Lemma custom_returns : returns_embedding_function
  (fn_call (takes1 "_configure_custom" (_configure_custom validate_embedding_function))).
Proof.
  intros [|config [|? ?]] v; cbn [fn_call takes1]; try discriminate.
  destruct config as [| | | | | |d| | |]; try (cbn; discriminate).
  rewrite custom_eq. cbv zeta.
  destruct (is_embedding_function (default PNone (sget "embedder" d))) eqn:Hef.
  - destruct (validate_embedding_function _); [discriminate|]. by intros [= <-].
  - destruct (default PNone (sget "embedder" d)) as [| | | | | | | |[instance|m]|];
      try discriminate.
    destruct (is_embedding_function instance) eqn:Hi; [|discriminate].
    destruct (validate_embedding_function instance); [discriminate|]. by intros [= <-].
Qed.

Lemma table_returns p f :
  dict_get String.eqb p (embedding_functions self) = Some f ->
  returns_embedding_function (fn_call f).
Proof.
  unfold __init__. cbn [embedding_functions dict_get].
  repeat (destruct (String.eqb p _);
          [intros [= <-];
           first [ apply openai_returns | apply azure_returns | apply ollama_returns
                 | apply vertexai_returns | apply google_returns | apply cohere_returns
                 | apply voyageai_returns | apply bedrock_returns
                 | apply huggingface_returns | apply watson_returns
                 | apply custom_returns ]|]).
  discriminate.
Qed.

(** X3. Whatever the configuration, what [configure_embedder] returns
    (when it raises nothing) is an embedding function: the default one,
    one built by an SDK class, or a custom one that passed validation. *)
Theorem configure_embedder_returns_embedding_function
    (embedder_config : option pydict) (v : pyval) :
  (configure_embedder getenv self embedder_config).2 = Ok v ->
  is_embedding_function v = true.
Proof.
  destruct embedder_config as [ec|]; [|by intros [= <-]].
  unfold configure_embedder.
  destruct (if negb (eq_str (default PNone (sget "provider" ec)) "custom")
            then py_get (default (PDict []) (sget "config" ec)) "model" PNone
            else Ok PNone) as [model_name|]; cbn [traced snd]; [|discriminate].
  unfold lookup_provider.
  destruct (hashable _); cbn [traced snd]; [|discriminate].
  destruct (default PNone (sget "provider" ec)) as [| | | |p| | | | |];
    cbn [traced snd]; try discriminate.
  destruct (dict_get String.eqb p (embedding_functions self)) as [f|] eqn:Hf;
    cbn [snd]; [|discriminate].
  apply (table_returns p f Hf).
Qed.

Lemma table_entry p :
  In p supported_providers ->
  exists f, dict_get String.eqb p (embedding_functions self) = Some f
            /\ fn_name f = String.append "_configure_" p.
Proof.
  unfold supported_providers. simpl.
  intros Hin. repeat (destruct Hin as [<-|Hin]; [eexists; split; reflexivity|]).
  done.
Qed.

Lemma config_entry_of_default ec d :
  default (PDict []) (sget "config" ec) = PDict d -> config_entry ec d.
Proof.
  unfold config_entry. destruct (sget "config" ec) as [c|]; simpl.
  - intros ->. by left.
  - intros [= <-]. by right.
Qed.

Lemma dispatch_unhashable ec config :
  config_entry ec config ->
  hashable (default PNone (sget "provider" ec)) = false ->
  configure_embedder getenv self (Some ec)
  = ([], Err (Raise TypeError
                [Lit "unhashable type: '";
                 Lit (type_name (default PNone (sget "provider" ec))); Lit "'"])).
Proof.
  intros Hc Hh. unfold configure_embedder.
  rewrite (EmbeddingFacts.config_entry_default _ _ Hc).
  destruct (default PNone (sget "provider" ec)); try discriminate;
    cbn [eq_str negb py_get traced]; unfold lookup_provider; by rewrite Hh.
Qed.

Lemma eq_str_custom ec :
  eq_str (default PNone (sget "provider" ec)) "custom" = true ->
  sget "provider" ec = Some (PStr "custom").
Proof.
  destruct (sget "provider" ec) as [[| | | |p| | | | |]|]; try done. simpl.
  by intros ->%String.eqb_eq.
Qed.

Lemma raised_itself (outcome : call_log * result pyval) e :
  outcome = ([], Err e) ->
  kind e = AttributeError \/ kind e = TypeError \/ kind e = Exception ->
  outcome.1 = []
  /\ exists e, outcome.2 = Err e
               /\ (kind e = AttributeError \/ kind e = TypeError \/ kind e = Exception).
Proof. intros -> Hk. eauto. Qed.

(** With a dict for a config, and a provider other than [custom]. *)
Lemma calls_with_dict ec d :
  config_entry ec d ->
  eq_str (default PNone (sget "provider" ec)) "custom" = false ->
  let outcome := configure_embedder getenv self (Some ec) in
  (outcome.1 = []
   /\ exists e, outcome.2 = Err e
                /\ (kind e = AttributeError \/ kind e = TypeError \/ kind e = Exception))
  \/ (exists p,
        sget "provider" ec = Some (PStr p)
        /\ In p supported_providers /\ p <> "custom"
        /\ outcome.1
           = [(String.append "_configure_" p, [PDict d; default PNone (sget "model" d)])]).
Proof.
  intros Hentry Hne outcome. subst outcome.
  destruct (hashable (default PNone (sget "provider" ec))) eqn:Hh.
  - assert (Hun : (forall p, default PNone (sget "provider" ec) = PStr p ->
                             ~ In p supported_providers) ->
                  configure_embedder getenv self (Some ec)
                  = ([], Err (Raise Exception
                                [Lit "Unsupported embedding provider: ";
                                 FmtVal (default PNone (sget "provider" ec));
                                 Lit ", supported providers: ";
                                 FmtKeys supported_providers]))).
    { intros Hnot.
      by apply (EmbeddingFacts.dispatch_unsupported getenv urlparse watson_installed
                  validate_embedding_function ec d). }
    destruct (sget "provider" ec) as [[| | | |p| | | | |]|] eqn:Hp;
      try (left; eapply raised_itself; [apply Hun; by intros ? [=] | simpl; tauto]).
    destruct (in_dec string_dec p supported_providers) as [Hin|Hnin].
    + right. exists p.
      destruct (table_entry p Hin) as (f & Hf & Hname).
      assert (Hcustom : p <> "custom").
      { intros ->. simpl in Hne. discriminate. }
      split; [done|]. split; [done|]. split; [done|].
      rewrite (EmbeddingFacts.dispatch_provider getenv urlparse watson_installed
                 validate_embedding_function ec p f d Hp Hentry Hcustom Hf).
      simpl. by rewrite Hname.
    + left. eapply raised_itself; [apply Hun; by intros ? [= <-] | simpl; tauto].
  - left. eapply raised_itself; [by apply (dispatch_unhashable ec d) | simpl; tauto].
Qed.

(** X4. Whatever the configuration, [configure_embedder] either calls
    nothing and raises itself (an [AttributeError] for a config that is
    no dict, a [TypeError] for an unhashable provider, the [Exception]
    for an unsupported one), or it makes exactly one call: of
    [_configure_custom] on the config alone, or of the configurator
    named after a supported provider on a dict and that dict's
    ["model"]. *)
Theorem configure_embedder_calls_at_most_one (ec : pydict) :
  let outcome := configure_embedder getenv self (Some ec) in
  let config := default (PDict []) (sget "config" ec) in
  (outcome.1 = []
   /\ exists e, outcome.2 = Err e
                /\ (kind e = AttributeError \/ kind e = TypeError \/ kind e = Exception))
  \/ (sget "provider" ec = Some (PStr "custom")
      /\ outcome.1 = [("_configure_custom", [config])])
  \/ (exists p d,
        sget "provider" ec = Some (PStr p)
        /\ In p supported_providers /\ p <> "custom"
        /\ config = PDict d
        /\ outcome.1
           = [(String.append "_configure_" p, [config; default PNone (sget "model" d)])]).
Proof.
  intros outcome config. subst outcome config.
  destruct (eq_str (default PNone (sget "provider" ec)) "custom") eqn:Hcustom.
  { apply eq_str_custom in Hcustom. right. left. split; [done|].
    by rewrite (EmbeddingFacts.dispatch_custom getenv urlparse watson_installed
                  validate_embedding_function ec Hcustom). }
  pose proof (config_entry_of_default ec) as Hdict.
  destruct (default (PDict []) (sget "config" ec)) as [| | | | | |d| | |] eqn:Hconfig;
    try (left; eapply raised_itself;
         [ destruct (sget "config" ec) as [c|] eqn:Hc; [|discriminate];
           simpl in Hconfig; subst c;
           by apply (EmbeddingFacts.dispatch_without_dict getenv urlparse
                       watson_installed validate_embedding_function ec)
         | simpl; tauto ]).
  destruct (calls_with_dict ec d (Hdict d eq_refl) Hcustom) as [Hnone|(p & Hp & Hin & Hne & Hlog)].
  - by left.
  - right. right. exists p, d. by repeat split.
Qed.

Ltac dispatch_to Hp Hc :=
  rewrite (EmbeddingFacts.dispatch_provider _ urlparse watson_installed
             validate_embedding_function _ _ _ _ Hp Hc ltac:(discriminate) eq_refl).

(** X5. For the provider [ollama] a model is mandatory: when the config
    (a dict, or absent) has no ["model"] or a falsy one,
    [configure_embedder] calls the Ollama configurator and that raises
    the [ValueError] about the model name, whatever URLs the config
    holds and before any URL is parsed. *)
Theorem configure_embedder_ollama_needs_model (ec config : pydict) :
  sget "provider" ec = Some (PStr "ollama") ->
  config_entry ec config ->
  truthy (default PNone (sget "model" config)) = false ->
  configure_embedder getenv self (Some ec)
  = ([("_configure_ollama", [PDict config; default PNone (sget "model" config)])],
     Err (Raise ValueError
            [Lit "Model name is required for Ollama embedder configuration"])).
Proof.
  intros Hp Hc Hm. dispatch_to Hp Hc. cbv zeta. cbn [fn_name fn_call takes2].
  unfold _configure_ollama. by rewrite Hm.
Qed.

(** X6. The eight providers that only pass the config on to an SDK
    class never make [configure_embedder] raise for a dict config (or
    none), whichever keys are missing; and all of them but [bedrock]
    and [huggingface] hand the config's ["model"] on as [model_name],
    [None] when there is none. *)
Theorem configure_embedder_sdk_accepts_any_dict (ec config : pydict) (p : string) :
  sget "provider" ec = Some (PStr p) ->
  In p ["openai"; "azure"; "vertexai"; "google"; "cohere"; "voyageai";
        "bedrock"; "huggingface"] ->
  config_entry ec config ->
  exists cls kwargs,
    (configure_embedder getenv self (Some ec)).2 = Ok (PEmbFn cls kwargs)
    /\ (p <> "bedrock" -> p <> "huggingface" ->
        sget "model_name" kwargs = Some (default PNone (sget "model" config))).
Proof.
  intros Hp Hin Hc. simpl in Hin.
  repeat (destruct Hin as [<-|Hin];
          [dispatch_to Hp Hc; cbn;
           try (destruct (default PNone (sget "model" config)); cbn);
           eexists _, _; (split; [reflexivity|]);
           intros; first [congruence | reflexivity]|]).
  done.
Qed.

(** X7. [bedrock] passes a [model_name] to the SDK only when the config
    has a ["model"] other than [None], so that the class's own default
    applies otherwise; [huggingface] never passes one, it builds the
    server from ["api_url"] alone. *)
Theorem configure_embedder_optional_model (ec config : pydict) :
  config_entry ec config ->
  let model := default PNone (sget "model" config) in
  (sget "provider" ec = Some (PStr "bedrock") ->
   exists kwargs,
     (configure_embedder getenv self (Some ec)).2
       = Ok (PEmbFn "AmazonBedrockEmbeddingFunction" kwargs)
     /\ sget "session" kwargs = Some (default PNone (sget "session" config))
     /\ (model = PNone -> sget "model_name" kwargs = None)
     /\ (model <> PNone -> sget "model_name" kwargs = Some model))
  /\ (sget "provider" ec = Some (PStr "huggingface") ->
      (configure_embedder getenv self (Some ec)).2
        = Ok (PEmbFn "HuggingFaceEmbeddingServer"
                [("url", default PNone (sget "api_url" config))])).
Proof.
  intros Hc model. split; intros Hp; dispatch_to Hp Hc; cbn; [|done].
  fold model. destruct model; cbn; eexists; (split; [reflexivity|]);
    (split; [done|]); split; intros; done.
Qed.

(** X8. Credentials.  [openai] takes the API key of the config when it is
    truthy and otherwise that of the environment variable
    [OPENAI_API_KEY] (so an empty key in the config falls back to the
    environment); [azure] takes the config's key as it is and never
    reads the environment, and its [api_type] is ["azure"] only when
    the config has no ["api_type"] key at all. *)
Theorem configure_openai_and_azure_credentials (config : pydict) (model_name : pyval) :
  let key := default PNone (sget "api_key" config) in
  (exists kwargs,
     _configure_openai getenv (PDict config) model_name
       = Ok (PEmbFn "OpenAIEmbeddingFunction" kwargs)
     /\ sget "api_key" kwargs
        = Some (if truthy key then key else os_getenv getenv "OPENAI_API_KEY")
     /\ sget "api_type" kwargs = Some (default PNone (sget "api_type" config)))
  /\ (exists kwargs,
        _configure_azure (PDict config) model_name
          = Ok (PEmbFn "OpenAIEmbeddingFunction" kwargs)
        /\ sget "api_key" kwargs = Some key
        /\ sget "api_type" kwargs
           = Some (default (PStr "azure") (sget "api_type" config))).
Proof.
  intros key. subst key. split; cbn; eexists; (split; [reflexivity|]); split; done.
Qed.

End More.

Import Samples.

Lemma validate_url_same_or_value_error_witness :
  _validate_url sample_urlparse (PStr "localhost:11434")
  = Err (Raise ValueError
           [Lit "Invalid URL: ";
            FmtMsg [Lit "Invalid URL format: "; FmtVal (PStr "localhost:11434")]]).
Proof.
  apply (validate_url_same_or_value_error sample_urlparse (PStr "localhost:11434"))
    with (parsed := {| scheme := ""; netloc := "" |}).
  - reflexivity.
  - left. reflexivity.
Defined.

Lemma configure_custom_validated_witness :
  _configure_custom accept_all (PDict [("embedder", my_embedder)]) = Ok my_embedder.
Proof.
  apply (configure_custom_validated accept_all [("embedder", my_embedder)]).
  - reflexivity.
  - reflexivity.
Defined.

Lemma configure_embedder_returns_embedding_function_witness :
  is_embedding_function
    (PEmbFn "OllamaEmbeddingFunction"
       [("url", PStr default_ollama_url); ("model_name", PStr "nomic-embed-text")])
  = true.
Proof.
  apply (configure_embedder_returns_embedding_function no_env sample_urlparse true
           accept_all (Some ollama_config)).
  reflexivity.
Defined.

Lemma configure_embedder_ollama_needs_model_witness :
  sample_configure_embedder (Some ollama_without_model)
  = ([("_configure_ollama",
       [PDict [("url", PStr "http://ollama:11434/api/embeddings")]; PNone])],
     Err (Raise ValueError
            [Lit "Model name is required for Ollama embedder configuration"])).
Proof.
  apply (configure_embedder_ollama_needs_model no_env sample_urlparse true accept_all
           ollama_without_model [("url", PStr "http://ollama:11434/api/embeddings")]).
  - reflexivity.
  - left. reflexivity.
  - reflexivity.
Defined.

Lemma configure_embedder_sdk_accepts_any_dict_witness :
  exists cls kwargs,
    (sample_configure_embedder (Some cohere_without_model)).2 = Ok (PEmbFn cls kwargs)
    /\ ("cohere" <> "bedrock" -> "cohere" <> "huggingface" ->
        sget "model_name" kwargs = Some PNone).
Proof.
  apply (configure_embedder_sdk_accepts_any_dict no_env sample_urlparse true accept_all
           cohere_without_model [("api_key", PStr "k")] "cohere").
  - reflexivity.
  - simpl. tauto.
  - left. reflexivity.
Defined.

Lemma configure_embedder_optional_model_witness :
  exists kwargs,
    (sample_configure_embedder (Some bedrock_bare)).2
      = Ok (PEmbFn "AmazonBedrockEmbeddingFunction" kwargs)
    /\ sget "session" kwargs = Some PNone
    /\ (PNone = PNone -> sget "model_name" kwargs = None)
    /\ (PNone <> PNone -> sget "model_name" kwargs = Some PNone).
Proof.
  apply (configure_embedder_optional_model no_env sample_urlparse true accept_all
           bedrock_bare []).
  - right. split; reflexivity.
  - reflexivity.
Defined.

End EmbeddingMore.

(** ** Memory: allocation and repeated saves *)

Module MemoryMore.
Import Py Memory.

Lemma sset_sset k v1 v2 d : sset k v2 (sset k v1 d) = sset k v2 d.
Proof.
  unfold sset. induction d as [|[k' v'] d IH]; simpl.
  - by rewrite String.eqb_refl.
  - destruct (String.eqb k k') eqn:E; simpl; rewrite E; [done|]. by rewrite IH.
Qed.

Lemma sset_nonempty k v d : sset k v d <> [].
Proof. unfold sset. destruct d as [|[k' v'] d]; simpl; [done|]. by destruct (String.eqb k k'). Qed.

Lemma sset_in_keys k v d : In k (dict_keys (sset k v d)).
Proof.
  unfold sset. induction d as [|[k' v'] d IH]; simpl; [by left|].
  destruct (String.eqb_spec k k') as [->|Hne]; simpl; [by left | by right].
Qed.

Lemma sset_keys_in k v d :
  In k (dict_keys d) -> dict_keys (sset k v d) = dict_keys d.
Proof.
  unfold sset. induction d as [|[k' v'] d IH]; simpl; [done|].
  intros Hin. destruct (String.eqb_spec k k') as [->|Hne]; simpl; [done|].
  f_equal. apply IH. destruct Hin; [congruence | done].
Qed.

Lemma sset_keys_new k v d :
  ~ In k (dict_keys d) -> dict_keys (sset k v d) = dict_keys d ++ [k].
Proof.
  unfold sset. induction d as [|[k' v'] d IH]; simpl; [done|].
  intros Hnin. destruct (String.eqb_spec k k') as [->|Hne]; simpl; [tauto|].
  f_equal. apply IH. tauto.
Qed.

(** X9. [Memory.save] creates a dict exactly when it is given none or an
    empty one: the storage then receives a new object (the caller's own
    empty dict is never passed on), and otherwise it receives the
    caller's object and nothing is created. *)
Theorem save_creates_dict_iff_empty {S} `{Storage S} (self : Memory S)
    (value : pyval) (metadata : option ref) (agent : option string)
    (h : store) (d0 : pydict) :
  given h metadata = Some d0 ->
  exists (r : ref) (h1 : store),
    save self value metadata agent h
      = with_storage (storage_save (storage self) value r h1)
    /\ (d0 = [] -> r = List.length h /\ List.length h1 = (List.length h + 1)%nat
                   /\ metadata <> Some r)
    /\ (d0 <> [] -> metadata = Some r /\ List.length h1 = List.length h).
Proof.
  intros Hgiven. unfold save.
  assert (Hfresh : forall r0, metadata = Some r0 -> r0 <> List.length h).
  { intros r0 ->. simpl in Hgiven. apply lookup_lt_Some in Hgiven. lia. }
  set (touch (r : ref) (h0 : store) :=
         match agent with
         | Some a =>
             if truthy (PStr a) then alter (sset "agent" (PStr a)) r h0 else h0
         | None => h0
         end).
  assert (Hlen : forall r h0, List.length (touch r h0) = List.length h0).
  { intros r h0. unfold touch. destruct agent as [a|]; [|done].
    destruct (truthy (PStr a)); [apply length_alter | done]. }
  assert (Hnew : exists r h1,
             with_storage (storage_save (storage self) value (new_dict h).1
                             (touch (new_dict h).1 (new_dict h).2))
             = with_storage (storage_save (storage self) value r h1)
             /\ r = List.length h /\ List.length h1 = (List.length h + 1)%nat
             /\ metadata <> Some r).
  { eexists _, _. split; [reflexivity|]. split; [reflexivity|]. split.
    - rewrite Hlen. simpl. rewrite length_app. simpl. lia.
    - intros Heq. by apply (Hfresh _ Heq). }
  destruct metadata as [r0|]; simpl in Hgiven.
  - destruct (dict_truthy h r0) eqn:Htruthy.
    + exists r0, (touch r0 h). split; [reflexivity|]. split.
      * intros ->. unfold dict_truthy in Htruthy. by rewrite Hgiven in Htruthy.
      * intros _. by rewrite Hlen.
    + destruct Hnew as (r & h1 & Heq & Hr & Hl & Hm). exists r, h1.
      split; [exact Heq|]. split; [done|].
      intros Hd0. by rewrite (MemoryFacts.dict_truthy_nonempty h r0 d0 Hgiven Hd0) in Htruthy.
  - destruct Hnew as (r & h1 & Heq & Hr & Hl & Hm). exists r, h1.
    split; [exact Heq|]. split; [done|]. intros Hd0. congruence.
Qed.

(** X10. Saving twice with the same non-empty metadata dict for two
    agents retags that dict: when the storage leaves the dict of the
    first call alone, the second call passes the same object, now with
    ["agent"] mapped to the second agent and every other key as the
    caller gave it, so whoever kept the reference of the first call
    reads the second agent; the dict has not grown in between and none
    was created. *)
Theorem save_twice_retags {S} `{Storage S} (self : Memory S)
    (value1 value2 : pyval) (r : ref) (d : pydict) (a1 a2 : string) (h : store) :
  h !! r = Some d -> d <> [] -> a1 <> "" -> a2 <> "" ->
  let first := save self value1 (Some r) (Some a1) h in
  first.1.1 = <[r := sset "agent" (PStr a1) d]> h ->
  let h2 := <[r := sset "agent" (PStr a2) d]> h in
  save first.1.2 value2 (Some r) (Some a2) first.1.1
    = with_storage (storage_save (storage first.1.2) value2 r h2)
  /\ h2 !! r = Some (sset "agent" (PStr a2) d)
  /\ (forall k, k <> "agent" -> sget k (sset "agent" (PStr a2) d) = sget k d)
  /\ dict_keys (sset "agent" (PStr a2) (sset "agent" (PStr a1) d))
     = dict_keys (sset "agent" (PStr a1) d)
  /\ List.length h2 = List.length h.
Proof.
  intros Hr Hd Ha1 Ha2 first Hkept h2.
  assert (Hlt : (r < List.length h)%nat) by (by eapply lookup_lt_Some).
  split; [|split; [|split; [|split]]].
  - rewrite Hkept.
    assert (Hr1 : <[r := sset "agent" (PStr a1) d]> h !! r
                  = Some (sset "agent" (PStr a1) d))
      by (by apply list_lookup_insert_eq).
    unfold save.
    rewrite (MemoryFacts.dict_truthy_nonempty _ r _ Hr1 (sset_nonempty _ _ _)).
    apply MemoryFacts.truthy_str in Ha2. rewrite Ha2.
    rewrite (MemoryFacts.alter_is_insert _ r _ _ Hr1).
    rewrite sset_sset. subst h2. by rewrite list_insert_insert_eq.
  - by apply list_lookup_insert_eq.
  - intros k Hk. by apply sget_sset_ne.
  - apply sset_keys_in, sset_in_keys.
  - apply length_insert.
Qed.

Lemma save_creates_dict_iff_empty_witness :
  exists (r : ref) (h1 : store),
    save empty_recorder (PStr "finding") (Some 0%nat) (Some "researcher") [[]]
      = with_storage (storage_save (storage empty_recorder) (PStr "finding") r h1)
    /\ (@nil (string * pyval) = [] ->
        r = 1%nat /\ List.length h1 = 2%nat /\ Some 0%nat <> Some r)
    /\ (@nil (string * pyval) <> [] -> Some 0%nat = Some r /\ List.length h1 = 1%nat).
Proof.
  apply (save_creates_dict_iff_empty empty_recorder (PStr "finding") (Some 0%nat)
           (Some "researcher") [[]] []).
  reflexivity.
Defined.

Lemma save_twice_retags_witness :
  let d := [("topic", PStr "ai")] in
  let h := [d] in
  let first := save empty_recorder (PStr "finding") (Some 0%nat) (Some "researcher") h in
  let h2 := <[0%nat := sset "agent" (PStr "writer") d]> h in
  save first.1.2 (PStr "draft") (Some 0%nat) (Some "writer") first.1.1
    = with_storage (storage_save (storage first.1.2) (PStr "draft") 0%nat h2)
  /\ h2 !! 0%nat = Some (sset "agent" (PStr "writer") d)
  /\ (forall k, k <> "agent" -> sget k (sset "agent" (PStr "writer") d) = sget k d)
  /\ dict_keys (sset "agent" (PStr "writer") (sset "agent" (PStr "researcher") d))
     = dict_keys (sset "agent" (PStr "researcher") d)
  /\ List.length h2 = List.length h.
Proof.
  apply (save_twice_retags empty_recorder (PStr "finding") (PStr "draft") 0%nat
           [("topic", PStr "ai")] "researcher" "writer" [[("topic", PStr "ai")]]).
  - reflexivity.
  - discriminate.
  - discriminate.
  - discriminate.
  - reflexivity.
Defined.

End MemoryMore.

(** ** Crew evaluator: what [evaluate] keeps, and how [print] fails *)

Module EvaluatorMore.
Import Py CrewEvaluator Averages EvaluatorLemmas.

(** [d[k].append(x)], entry by entry. *)
Lemma dd_append_nil k x : dd_append k x [] = [(k, [x])].
Proof. unfold dd_append, dd_getitem. simpl. by rewrite Z.eqb_refl. Qed.

Lemma dd_append_cons k x k' v d :
  dd_append k x ((k', v) :: d)
  = if Z.eqb k k' then (k', v ++ [x]) :: d else (k', v) :: dd_append k x d.
Proof.
  unfold dd_append, dd_getitem. simpl.
  destruct (Z.eqb k k') eqn:E; simpl; [by rewrite E|].
  destruct (dict_get Z.eqb k d); simpl; by rewrite E.
Qed.

Lemma shape_dd_append k x y d1 d2 :
  shape d1 = shape d2 -> shape (dd_append k x d1) = shape (dd_append k y d2).
Proof.
  revert d2. induction d1 as [|[k1 v1] d1 IH]; intros [|[k2 v2] d2]; try done.
  - intros _. by rewrite !dd_append_nil.
  - simpl. intros [= <- Hlen Hrest]. rewrite !dd_append_cons.
    destruct (Z.eqb k k1); simpl.
    + rewrite !length_app, Hlen. by f_equal.
    + rewrite Hlen. f_equal. by apply IH.
Qed.

Lemma of_run_dd_append k x d k' :
  exists more, of_run (dd_append k x d) k' = of_run d k' ++ more
               /\ List.length more = if Z.eqb k k' then 1%nat else 0%nat.
Proof.
  destruct (Z.eqb_spec k k') as [<-|Hne].
  - exists [x]. split; [apply dd_append_same | done].
  - exists []. split; [|done]. unfold of_run.
    rewrite (dd_append_other k k' x d Hne). by rewrite app_nil_r.
Qed.

(** [zip] stops at the shortest list. *)
Lemma zip_star_empty_member {A} (ls : list (list A)) :
  In [] ls -> zip_star ls = [].
Proof.
  induction ls as [|l ls IH]; [done|].
  intros [->|Hin].
  - by destruct ls.
  - destruct ls as [|l' ls]; [done|].
    change (zip_star (l :: l' :: ls)) with (zip_with cons l (zip_star (l' :: ls))).
    rewrite IH by done. apply zip_with_nil_r.
Qed.

Lemma zip_star_tuples_nonempty {A} (ls : list (list A)) t :
  In t (zip_star ls) -> t <> [].
Proof.
  destruct ls as [|l ls]; [done|]. destruct ls as [|l' ls].
  - simpl. intros (x & <- & _)%in_map_iff. done.
  - change (zip_star (l :: l' :: ls)) with (zip_with cons l (zip_star (l' :: ls))).
    generalize (zip_star (l' :: ls)). intros k. revert k.
    induction l as [|x l IH]; intros [|y k]; simpl; try done.
    intros [<-|Hin]; [done | by eapply IH].
Qed.

Lemma zip_star_nonempty {A} (ls : list (list A)) :
  ls <> [] -> Forall (fun l => l <> []) ls -> zip_star ls <> [].
Proof.
  induction ls as [|l ls IH]; [done|].
  intros _ Hall. apply Forall_cons in Hall as [Hl Hall].
  destruct ls as [|l' ls].
  - simpl. by destruct l.
  - change (zip_star (l :: l' :: ls)) with (zip_with cons l (zip_star (l' :: ls))).
    specialize (IH ltac:(done) Hall).
    destruct l; [done|]. by destruct (zip_star (l' :: ls)).
Qed.

Lemma bind_ev_err {A B} (m : ev A) (k : A -> ev B) d d' e :
  m d = (d', Err e) -> bind_ev m k d = (d', Err e).
Proof. intros Hm. unfold bind_ev. by rewrite Hm. Qed.

Lemma mapM_fails {A B} (f : A -> ev B) (g : A -> B) before a rest d d' e :
  (forall b, In b before -> f b d = (d, Ok (g b))) ->
  f a d = (d', Err e) ->
  mapM f (before ++ a :: rest) d = (d', Err e).
Proof.
  intros Hbefore Ha. induction before as [|b before IH]; simpl.
  - by apply bind_ev_err.
  - rewrite (bind_ev_ok _ _ _ _ _ (Hbefore b ltac:(by left))).
    apply bind_ev_err. apply IH. intros; apply Hbefore; by right.
Qed.

Lemma getitem_present (d : scores) run :
  In run (dict_keys d) -> getitem run d = (d, Ok (of_run d run)).
Proof.
  intros Hin. destruct (dict_get_in_keys Z.eqb Zeqb_eq run d Hin) as [v Hv].
  unfold getitem, dd_getitem, of_run. by rewrite Hv.
Qed.

Lemma getitem_missing (d : scores) run :
  ~ In run (dict_keys d) -> getitem run d = (d ++ [(run, [])], Ok []).
Proof.
  intros Hnin. unfold getitem, dd_getitem.
  by rewrite (dict_get_not_in_keys Z.eqb Zeqb_eq run d Hnin).
Qed.

Lemma print_empty_run cls self :
  In [] (dict_values (tasks_scores cls)) ->
  print_crew_evaluation_result cls self = (cls, Err division_by_zero).
Proof.
  intros Hin. unfold print_crew_evaluation_result, self_tasks_scores, print_body.
  unfold read_values at 1. unfold bind_ev at 1.
  rewrite (zip_star_empty_member _ Hin). cbn.
  by rewrite EvaluatorFacts.class_attrs_eta.
Qed.

(** X15. A run without scores stops the printing: whenever some entry of
    [tasks_scores] is an empty list, [print_crew_evaluation_result]
    raises [ZeroDivisionError] ([zip] yields no tuple, so there is no
    task average to take the crew average of), whatever the other
    entries, the crew and the execution times; the tables are left as
    they were. *)
Theorem print_with_empty_run_divides_by_zero cls self :
  In [] (dict_values (tasks_scores cls)) ->
  print_crew_evaluation_result cls self = (cls, Err division_by_zero).
Proof. apply print_empty_run. Qed.

(** X16. Printing needs the runs to be numbered from 1.  Let
    [tasks_scores] have n entries, none of them empty, and let the crew
    have a task.  If some number of 1..n is not a key (say the scores
    were recorded under iteration 0), then at the first such number r
    the lookup [tasks_scores[r]] creates an empty entry for r, and
    [print_crew_evaluation_result] raises [IndexError]; the new entry
    stays, so that printing again raises [ZeroDivisionError]. *)
Theorem print_with_missing_run cls self before r rest :
  tasks (crew self) <> [] ->
  tasks_scores cls <> [] ->
  Forall (fun l => l <> []) (dict_values (tasks_scores cls)) ->
  runs (List.length (tasks_scores cls)) = before ++ r :: rest ->
  Forall (fun k => In k (dict_keys (tasks_scores cls))) before ->
  ~ In r (dict_keys (tasks_scores cls)) ->
  let after :=
    {| tasks_scores := tasks_scores cls ++ [(r, [])];
       run_execution_times := run_execution_times cls;
       iteration := iteration cls |} in
  print_crew_evaluation_result cls self
    = (after, Err (Raise IndexError [Lit "list index out of range"]))
  /\ print_crew_evaluation_result after self = (after, Err division_by_zero).
Proof.
  intros Htasks Hsome Hall Hruns Hbefore Hr after. split.
  - unfold print_crew_evaluation_result, self_tasks_scores. subst after.
    set (d := tasks_scores cls) in *.
    assert (Hbody : print_body cls self d
                    = (d ++ [(r, [])],
                       Err (Raise IndexError [Lit "list index out of range"])));
      [|by rewrite Hbody].
    unfold print_body.
    unfold read_values at 1. unfold bind_ev at 1.
    unfold lift at 1.
    rewrite (mapR_pure _ mean).
    2:{ intros scores Hin. apply py_div_mean. by eapply zip_star_tuples_nonempty. }
    unfold bind_ev at 1. unfold lift at 1.
    rewrite py_div_mean.
    2:{ intros Hnil. apply map_eq_nil in Hnil. revert Hnil.
        apply zip_star_nonempty; [|done].
        unfold dict_values. by destruct d. }
    unfold bind_ev at 1. unfold read_len at 1. unfold bind_ev at 1.
    apply bind_ev_err.
    destruct (tasks (crew self)) as [|t0 ts] eqn:Hts; [done|].
    unfold enumerate. cbn [List.length seq combine mapM].
    apply bind_ev_err.
    unfold task_rows. unfold read_len at 1. unfold bind_ev at 1.
    apply bind_ev_err. rewrite Hruns.
    apply (mapM_fails _ (fun run => nth 0 (of_run d run) (Q2Qc 0))).
    + intros run Hin. rewrite List.Forall_forall in Hbefore.
      rewrite (bind_ev_ok _ _ _ _ _ (getitem_present d run (Hbefore run Hin))).
      unfold lift. rewrite (py_index_nth (Q2Qc 0)); [done|].
      rewrite List.Forall_forall in Hall.
      pose proof (Hall _ (of_run_in d run (Hbefore run Hin))).
      destruct (of_run d run); simpl; [done | lia].
    + by rewrite (bind_ev_ok _ _ _ _ _ (getitem_missing d r Hr)).
  - apply print_empty_run. subst after.
    cbn [tasks_scores]. unfold dict_values. rewrite map_app.
    apply in_or_app. right. by left.
Qed.

(** The stages of printing that read [tasks_scores] only. *)
Section Scores.
Variables (cls : ClassAttrs) (self : CrewEvaluator) (n : nat).
Hypothesis Hn : (1 <= n)%nat.
Hypothesis Hkeys : Permutation (dict_keys (tasks_scores cls)) (runs n).
Hypothesis Hall :
  Forall (fun l => List.length l = List.length (tasks (crew self)))
         (dict_values (tasks_scores cls)).
Hypothesis Htasks : tasks (crew self) <> [].

Local Abbreviation numbered :=
  {| tasks_scores := tasks_scores cls;
     run_execution_times := map (fun run => (run, [])) (runs n);
     iteration := iteration cls |}.

Lemma numbered_recorded : recorded (crew self) numbered n.
Proof.
  split; try done. cbn [run_execution_times]. unfold dict_keys.
  rewrite map_map. simpl. by rewrite map_id.
Qed.

Lemma print_body_scores :
  print_body cls self (tasks_scores cls)
  = match times_of cls with
    | [] => (tasks_scores cls, Err division_by_zero)
    | _ :: _ =>
        (tasks_scores cls,
         Ok (table_of (crew self) cls n
               (py_int (mean (map of_int (times_of cls))))))
    end.
Proof.
  pose proof numbered_recorded as Hrec.
  pose proof (stage_task_averages numbered self n Hrec) as H1.
  pose proof (stage_crew_average numbered self n Htasks) as H2.
  pose proof (stage_len numbered self n Hrec) as H3.
  pose proof (stage_task_rows numbered self n Hrec) as H4.
  pose proof (stage_crew_scores numbered self n Hrec Htasks) as H5.
  change (task_average numbered n) with (task_average cls n) in *.
  change (tasks_scores numbered) with (tasks_scores cls) in *.
  change (crew_average numbered n) with (crew_average cls n) in *.
  change (crew_score numbered) with (crew_score cls) in *.
  change (score_at numbered) with (score_at cls) in *.
  unfold print_body.
  unfold read_values at 1. unfold bind_ev at 1.
  unfold lift at 1. rewrite H1. unfold bind_ev at 1.
  unfold lift at 1. rewrite H2. unfold bind_ev at 1.
  rewrite (bind_ev_ok _ _ _ _ _ H3).
  rewrite (bind_ev_ok _ _ _ _ _
             (mapM_pure _ (fun '(i, task) => _) _ (tasks_scores cls)
                (fun '(i, task) Hin => H4 i task Hin))).
  rewrite (bind_ev_ok _ _ _ _ _ H3).
  rewrite (bind_ev_ok _ _ _ _ _ H5).
  unfold self_run_execution_times. rewrite stage_run_exec_times.
  change (map (fun ts => py_int (total ts)) (dict_values (run_execution_times cls)))
    with (times_of cls).
  destruct (times_of cls) as [|z zs] eqn:Htimes.
  - reflexivity.
  - unfold lift at 1.
    rewrite (py_div_total _ (map of_int (z :: zs)) (List.length (z :: zs)));
      [|simpl; lia|by rewrite length_map|].
    2:{ rewrite py_sum_int_fold. apply of_int_fold. }
    unfold bind_ev, ret, table_of. rewrite <- Htimes. unfold times_of.
    by rewrite !map_map.
Qed.

End Scores.


Lemma task_row_width cls n i agents :
  List.length ([Numbered "Task " (i + 1)]
                 ++ map (fun run => Fixed 1 (score_at cls run i)) (runs n)
                 ++ [Fixed 1 (task_average cls n i); first_agent_cell agents])
  = (n + 3)%nat.
Proof. rewrite !length_app, length_map, runs_length. simpl. lia. Qed.


Section More.
Variable execute_sync : Task -> TaskOutput.
Variable llm_str : LLM -> string.

Local Abbreviation evaluate := (CrewEvaluator.evaluate execute_sync llm_str).

(** The two ways [evaluate] can end. *)
Lemma evaluate_cases cls self task_output :
  (exists m, evaluate cls self task_output = (cls, self, Err (Raise ValueError m)))
  \/ (exists t q,
        List.find (fun task => String.eqb (description task) (output_description task_output))
                  (tasks (crew self)) = Some t
        /\ pydantic (execute_sync
                       (_evaluation_task self (_evaluator_agent self) t (raw task_output)))
           = Some (TaskEvaluationPydanticOutput q)
        /\ (evaluate cls self task_output).2 = Ok tt
        /\ (evaluate cls self task_output).1.1
           = {| tasks_scores := dd_append (self_iteration cls self) q (tasks_scores cls);
                run_execution_times :=
                  dd_append (self_iteration cls self) (_execution_time t)
                            (run_execution_times cls);
                iteration := iteration cls |}).
Proof.
  unfold CrewEvaluator.evaluate.
  destruct (List.find _ _) as [t|]; [|eauto].
  destruct (pydantic _) as [[q|name]|] eqn:Hparsed; [|eauto|eauto].
  right. exists t, q. by repeat split.
Qed.

(** X11. [evaluate] keeps the two tables in step.  If, before any
    sequence of evaluations by any evaluators, [tasks_scores] and
    [run_execution_times] have the same keys in the same order with
    lists of the same lengths, they do so afterwards, whether calls
    raised or not; and every list of before is a prefix of the list of
    after, with as many scores added as times. *)
Theorem evaluations_keep_tables_in_step
    (calls : list (CrewEvaluator * TaskOutput)) (cls : ClassAttrs) :
  shape (tasks_scores cls) = shape (run_execution_times cls) ->
  let after :=
    fold_left (fun cls '(self, task_output) => (evaluate cls self task_output).1.1)
              calls cls in
  shape (tasks_scores after) = shape (run_execution_times after)
  /\ iteration after = iteration cls
  /\ forall k, exists more_scores more_times,
       of_run (tasks_scores after) k = of_run (tasks_scores cls) k ++ more_scores
       /\ of_run (run_execution_times after) k
          = of_run (run_execution_times cls) k ++ more_times
       /\ List.length more_scores = List.length more_times.
Proof.
  revert cls. induction calls as [|[self task_output] calls IH]; intros cls Hshape.
  - simpl. split; [done|]. split; [done|]. intros k. exists [], [].
    by rewrite !app_nil_r.
  - cbn [fold_left].
    set (next := (evaluate cls self task_output).1.1).
    assert (Hnext : shape (tasks_scores next) = shape (run_execution_times next)
                    /\ iteration next = iteration cls
                    /\ forall k, exists more_scores more_times,
                         of_run (tasks_scores next) k
                           = of_run (tasks_scores cls) k ++ more_scores
                         /\ of_run (run_execution_times next) k
                            = of_run (run_execution_times cls) k ++ more_times
                         /\ List.length more_scores = List.length more_times).
    { subst next.
      destruct (evaluate_cases cls self task_output)
        as [[m ->]|(t & q & _ & _ & _ & ->)]; cbn [fst tasks_scores run_execution_times
                                                    iteration].
      - split; [done|]. split; [done|]. intros k. exists [], [].
        by rewrite !app_nil_r.
      - split; [by apply shape_dd_append|]. split; [done|]. intros k.
        destruct (of_run_dd_append (self_iteration cls self) q (tasks_scores cls) k)
          as (ms & Hs & Hls).
        destruct (of_run_dd_append (self_iteration cls self) (_execution_time t)
                    (run_execution_times cls) k) as (mt & Ht & Hlt).
        exists ms, mt. split; [done|]. split; [done|]. congruence. }
    destruct Hnext as (Hshape' & Hit & Hgrow).
    destruct (IH next Hshape') as (Hs & Hi & Hg).
    split; [exact Hs|]. split; [congruence|]. intros k.
    destruct (Hgrow k) as (ms1 & mt1 & Hs1 & Ht1 & Hl1).
    destruct (Hg k) as (ms2 & mt2 & Hs2 & Ht2 & Hl2).
    exists (ms1 ++ ms2), (mt1 ++ mt2).
    rewrite Hs2, Ht2, Hs1, Ht1, <- !app_assoc, !length_app. auto.
Qed.

Lemma find_first {A} (f : A -> bool) (before : list A) (a : A) (rest : list A) :
  Forall (fun b => f b = false) before -> f a = true ->
  List.find f (before ++ a :: rest) = Some a.
Proof.
  intros Hbefore Ha. induction Hbefore as [|b before Hb _ IH]; simpl.
  - by rewrite Ha.
  - by rewrite Hb.
Qed.

(** X12. Of several tasks with the same description, [evaluate] takes
    the first: the task evaluated and the execution time recorded are
    those of the first task of the crew whose description equals the
    output's, whatever tasks follow it. *)
Theorem evaluate_takes_first_match cls self task_output before t rest q :
  tasks (crew self) = before ++ t :: rest ->
  Forall (fun task => description task <> output_description task_output) before ->
  description t = output_description task_output ->
  pydantic (execute_sync
              (_evaluation_task self (_evaluator_agent self) t (raw task_output)))
    = Some (TaskEvaluationPydanticOutput q) ->
  let run := self_iteration cls self in
  let after := (evaluate cls self task_output).1.1 in
  (evaluate cls self task_output).2 = Ok tt
  /\ of_run (tasks_scores after) run = of_run (tasks_scores cls) run ++ [q]
  /\ of_run (run_execution_times after) run
     = of_run (run_execution_times cls) run ++ [_execution_time t].
Proof.
  intros Htasks Hbefore Ht Hq run after. subst after.
  assert (Hfind : List.find (fun task => String.eqb (description task)
                                           (output_description task_output))
                            (tasks (crew self)) = Some t).
  { rewrite Htasks. apply find_first.
    - eapply List.Forall_impl; [|exact Hbefore]. intros task Hne.
      by apply String.eqb_neq.
    - by apply String.eqb_eq. }
  unfold CrewEvaluator.evaluate. rewrite Hfind, Hq. cbn [fst snd tasks_scores
                                                         run_execution_times].
  split; [done|]. split; apply dd_append_same.
Qed.

Lemma find_some_in {A} (f : A -> bool) (l : list A) (a : A) :
  In a l -> f a = true -> exists b, List.find f l = Some b.
Proof.
  intros Hin Ha. destruct (List.find f l) as [b|] eqn:E; [eauto|].
  by rewrite (find_none _ _ E a Hin) in Ha.
Qed.

(** X13. Constructing an evaluator binds the callback of every task of
    the crew to it and changes nothing else about the tasks (their
    number, order, descriptions, agents and times); and for an output
    that carries the description of one of the crew's tasks, the new
    evaluator's [evaluate] finds a task: if it raises, then only about
    the format of the evaluation result. *)
Theorem init_binds_every_task cls self_id c llm_or_name :
  let self := (__init__ cls self_id c llm_or_name).2 in
  Forall (fun task => callback task = Some self_id) (tasks (crew self))
  /\ map (fun task => (description task, expected_output task, agent task,
                       processed_by_agents task, _execution_time task))
         (tasks (crew self))
     = map (fun task => (description task, expected_output task, agent task,
                         processed_by_agents task, _execution_time task))
           (tasks c)
  /\ (forall task task_output,
        In task (tasks c) ->
        output_description task_output = description task ->
        (evaluate cls self task_output).2 = Ok tt
        \/ (evaluate cls self task_output).2
           = Err (Raise ValueError [Lit "Evaluation result is not in the expected format"])).
Proof.
  intros self. subst self. cbn [snd __init__ crew _setup_for_evaluating tasks].
  split; [|split].
  - apply List.Forall_forall. intros task Hin.
    apply in_map_iff in Hin as (task0 & <- & _). reflexivity.
  - rewrite map_map. reflexivity.
  - intros task task_output Hin Hdesc. unfold CrewEvaluator.evaluate.
    cbn [crew tasks].
    match goal with
    | |- context [List.find ?f ?l] =>
        destruct (find_some_in f l
                    {| description := description task;
                       expected_output := expected_output task;
                       agent := agent task;
                       output_pydantic := output_pydantic task;
                       callback := Some self_id;
                       processed_by_agents := processed_by_agents task;
                       _execution_time := _execution_time task |}) as [b ->]
    end.
    + apply in_map_iff. eauto.
    + simpl. by apply String.eqb_eq.
    + destruct (pydantic _) as [[q|name]|]; cbn [snd]; auto.
Qed.

(** X14. Evaluators that never had [set_iteration] called record under
    the iteration of the class, so they share one list: after one
    evaluator's successful [evaluate] and then another's (of any crew),
    the list of that iteration holds what it held, then the first
    score, then the second. *)
Theorem evaluators_share_the_class_iteration cls first second output1 output2 :
  own_iteration first = None -> own_iteration second = None ->
  let middle := (evaluate cls first output1).1.1 in
  let after := (evaluate middle second output2).1.1 in
  (evaluate cls first output1).2 = Ok tt ->
  (evaluate middle second output2).2 = Ok tt ->
  exists t1 q1 t2 q2,
    pydantic (execute_sync
                (_evaluation_task first (_evaluator_agent first) t1 (raw output1)))
      = Some (TaskEvaluationPydanticOutput q1)
    /\ pydantic (execute_sync
                   (_evaluation_task second (_evaluator_agent second) t2 (raw output2)))
       = Some (TaskEvaluationPydanticOutput q2)
    /\ of_run (tasks_scores after) (iteration cls)
       = of_run (tasks_scores cls) (iteration cls) ++ [q1; q2]
    /\ of_run (run_execution_times after) (iteration cls)
       = of_run (run_execution_times cls) (iteration cls)
         ++ [_execution_time t1; _execution_time t2].
Proof.
  intros Hfirst Hsecond middle after Hok1 Hok2. subst after.
  destruct (evaluate_cases cls first output1)
    as [[m Hraise]|(t1 & q1 & _ & Hq1 & _ & Hmid)].
  { rewrite Hraise in Hok1. discriminate. }
  destruct (evaluate_cases middle second output2)
    as [[m Hraise]|(t2 & q2 & _ & Hq2 & _ & Hafter)].
  { rewrite Hraise in Hok2. discriminate. }
  exists t1, q1, t2, q2. split; [done|]. split; [done|].
  rewrite Hafter. subst middle. rewrite Hmid.
  unfold self_iteration. rewrite Hfirst, Hsecond.
  cbn [iteration tasks_scores run_execution_times default from_option id].
  rewrite !dd_append_same, <- !app_assoc. done.
Qed.

Lemma nonempty_cons {A} (l : list A) : l <> [] -> exists a l', l = a :: l'.
Proof. destruct l; [done | eauto]. Qed.

(** A whole run: the callback of every task, under one iteration. *)
Lemma dd_append_new k x (d : scores) :
  ~ In k (dict_keys d) -> dd_append k x d = d ++ [(k, [x])].
Proof.
  induction d as [|[k' v] d IH]; intros Hnin.
  - apply dd_append_nil.
  - rewrite dd_append_cons. simpl in Hnin.
    destruct (Z.eqb_spec k k') as [->|_]; [tauto|].
    simpl. rewrite IH; [done | tauto].
Qed.

Lemma dd_append_last k x v (d : scores) :
  ~ In k (dict_keys d) -> dd_append k x (d ++ [(k, v)]) = d ++ [(k, v ++ [x])].
Proof.
  induction d as [|[k' v'] d IH]; intros Hnin.
  - simpl. rewrite dd_append_cons. by rewrite Z.eqb_refl.
  - simpl. rewrite dd_append_cons. simpl in Hnin.
    destruct (Z.eqb_spec k k') as [->|_]; [tauto|].
    rewrite IH; [done | tauto].
Qed.

Section Runs.
Variables (self : CrewEvaluator) (outputs : Task -> TaskOutput).
Hypothesis Houtputs :
  forall task, In task (tasks (crew self)) ->
               output_description (outputs task) = description task.
Hypothesis Hstructured :
  forall task, exists q, pydantic (execute_sync task) = Some (TaskEvaluationPydanticOutput q).

Local Abbreviation step :=
  (fun cls '(e, task_output) => (evaluate cls e task_output).1.1).
Local Abbreviation callbacks run :=
  (map (fun task => (set_iteration self run, outputs task)) (tasks (crew self))).

Lemma callback_records cls run task :
  In task (tasks (crew self)) ->
  exists q x,
    (evaluate cls (set_iteration self run) (outputs task)).1.1
    = {| tasks_scores := dd_append run q (tasks_scores cls);
         run_execution_times := dd_append run x (run_execution_times cls);
         iteration := iteration cls |}.
Proof.
  intros Hin.
  destruct (evaluate_cases cls (set_iteration self run) (outputs task))
    as [[m Hraise]|(t & q & _ & _ & _ & Hafter)]; [|eauto].
  exfalso. revert Hraise. unfold CrewEvaluator.evaluate.
  cbn [crew set_iteration].
  match goal with
  | |- context [List.find ?f ?l] =>
      destruct (find_some_in f l task Hin) as [b ->]
  end.
  { apply String.eqb_eq. symmetry. by apply Houtputs. }
  destruct (Hstructured (_evaluation_task (set_iteration self run)
                           (_evaluator_agent (set_iteration self run)) b
                           (raw (outputs task)))) as [q Hq].
  cbn [crew set_iteration] in Hq |- *. rewrite Hq. discriminate.
Qed.

(** The callbacks of some tasks of the crew, after the list of the run
    has been opened. *)
Lemma run_continues run (l : list Task) :
  (forall task, In task l -> In task (tasks (crew self))) ->
  forall ts tm vs vt it,
  ~ In run (dict_keys ts) -> ~ In run (dict_keys tm) ->
  exists vs' vt',
    fold_left step (map (fun task => (set_iteration self run, outputs task)) l)
      {| tasks_scores := ts ++ [(run, vs)];
         run_execution_times := tm ++ [(run, vt)];
         iteration := it |}
    = {| tasks_scores := ts ++ [(run, vs ++ vs')];
         run_execution_times := tm ++ [(run, vt ++ vt')];
         iteration := it |}
    /\ List.length vs' = List.length l /\ List.length vt' = List.length l.
Proof.
  induction l as [|task l IH]; intros Hl ts tm vs vt it Hts Htm.
  - exists [], []. by rewrite !app_nil_r.
  - cbn [map fold_left].
    destruct (callback_records
                {| tasks_scores := ts ++ [(run, vs)];
                   run_execution_times := tm ++ [(run, vt)];
                   iteration := it |} run task (Hl task ltac:(by left)))
      as (q & x & ->).
    cbn [tasks_scores run_execution_times iteration].
    rewrite !dd_append_last by done.
    destruct (IH (fun t Ht => Hl t (or_intror Ht)) ts tm (vs ++ [q]) (vt ++ [x]) it Hts Htm)
      as (vs' & vt' & -> & Hlen1 & Hlen2).
    exists (q :: vs'), (x :: vt'). rewrite <- !app_assoc. simpl. auto.
Qed.

Lemma run_completes run ts tm it :
  tasks (crew self) <> [] ->
  ~ In run (dict_keys ts) -> ~ In run (dict_keys tm) ->
  exists vs vt,
    fold_left step (callbacks run)
      {| tasks_scores := ts; run_execution_times := tm; iteration := it |}
    = {| tasks_scores := ts ++ [(run, vs)];
         run_execution_times := tm ++ [(run, vt)];
         iteration := it |}
    /\ List.length vs = List.length (tasks (crew self))
    /\ List.length vt = List.length (tasks (crew self)).
Proof.
  intros Htasks Hts Htm.
  destruct (nonempty_cons (tasks (crew self)) Htasks) as (task & l & Hl).
  rewrite Hl. cbn [map fold_left].
  destruct (callback_records
              {| tasks_scores := ts; run_execution_times := tm; iteration := it |}
              run task) as (q & x & ->).
  { rewrite Hl. by left. }
  cbn [tasks_scores run_execution_times iteration].
  rewrite !dd_append_new by done.
  destruct (run_continues run l) with (ts := ts) (tm := tm) (vs := [q]) (vt := [x])
                                      (it := it)
    as (vs' & vt' & -> & Hlen1 & Hlen2); try done.
  { intros t Ht. rewrite Hl. by right. }
  exists ([q] ++ vs'), ([x] ++ vt'). simpl. auto.
Qed.

Lemma runs_snoc n : runs (S n) = runs n ++ [Z.of_nat (S n)].
Proof. unfold runs. by rewrite seq_S, map_app. Qed.

Lemma not_in_runs n : ~ In (Z.of_nat (S n)) (runs n).
Proof.
  unfold runs. intros (k & Hk & Hin)%in_map_iff. apply in_seq in Hin. lia.
Qed.

Lemma runs_complete n :
  tasks (crew self) <> [] ->
  exists ts tm,
    fold_left step (flat_map (fun run => callbacks run) (runs n)) class_body
    = {| tasks_scores := ts; run_execution_times := tm; iteration := 0 |}
    /\ dict_keys ts = runs n /\ dict_keys tm = runs n
    /\ Forall (fun l => List.length l = List.length (tasks (crew self))) (dict_values ts).
Proof.
  intros Htasks. induction n as [|n (ts & tm & Hfold & Hts & Htm & Hall)].
  - exists [], []. by repeat split.
  - rewrite runs_snoc, flat_map_app, fold_left_app, Hfold.
    cbn [flat_map]. rewrite app_nil_r.
    destruct (run_completes (Z.of_nat (S n)) ts tm 0 Htasks) as (vs & vt & -> & Hvs & Hvt).
    { rewrite Hts. apply not_in_runs. }
    { rewrite Htm. apply not_in_runs. }
    exists (ts ++ [(Z.of_nat (S n), vs)]), (tm ++ [(Z.of_nat (S n), vt)]).
    split; [done|]. unfold dict_keys, dict_values in *.
    rewrite !map_app, Hts, Htm. simpl.
    split; [done|]. split; [done|].
    apply Forall_app. split; [done|]. by constructor.
Qed.


End Runs.

End More.

Import Samples.

Lemma evaluations_keep_tables_in_step_witness :
  let calls :=
    [(evaluator_of quick_crew, scores_nine (sample_task "lookup" [] (qc 1 2)));
     (evaluator_of quick_crew, scores_nine (sample_task "other" [] (qc 1 2)));
     (set_iteration (evaluator_of research_crew) 2,
      scores_nine (sample_task "report" [] (qc 1 2)))] in
  let after :=
    fold_left (fun cls '(self, task_output) =>
                 (evaluate scores_nine model cls self task_output).1.1)
              calls class_body in
  shape (tasks_scores after) = shape (run_execution_times after)
  /\ iteration after = iteration class_body
  /\ forall k, exists more_scores more_times,
       of_run (tasks_scores after) k = of_run (tasks_scores class_body) k ++ more_scores
       /\ of_run (run_execution_times after) k
          = of_run (run_execution_times class_body) k ++ more_times
       /\ List.length more_scores = List.length more_times.
Proof.
  apply (evaluations_keep_tables_in_step scores_nine model
           [(evaluator_of quick_crew, scores_nine (sample_task "lookup" [] (qc 1 2)));
            (evaluator_of quick_crew, scores_nine (sample_task "other" [] (qc 1 2)));
            (set_iteration (evaluator_of research_crew) 2,
             scores_nine (sample_task "report" [] (qc 1 2)))]
           class_body).
  reflexivity.
Defined.

Lemma evaluate_takes_first_match_witness :
  let self := evaluator_of twin_crew in
  let task_output := scores_nine (sample_task "lookup" [] (qc 1 2)) in
  let after := (evaluate scores_nine model class_body self task_output).1.1 in
  (evaluate scores_nine model class_body self task_output).2 = Ok tt
  /\ of_run (tasks_scores after) 0 = of_run (tasks_scores class_body) 0 ++ [qc 9 1]
  /\ of_run (run_execution_times after) 0
     = of_run (run_execution_times class_body) 0 ++ [qc 1 2].
Proof.
  apply (evaluate_takes_first_match scores_nine model class_body (evaluator_of twin_crew)
           (scores_nine (sample_task "lookup" [] (qc 1 2)))
           []
           {| description := "lookup"; expected_output := "a report"; agent := None;
              output_pydantic := None; callback := Some 0%nat;
              processed_by_agents := []; _execution_time := qc 1 2 |}
           [{| description := "lookup"; expected_output := "a report"; agent := None;
               output_pydantic := None; callback := Some 0%nat;
               processed_by_agents := ["Editor"]; _execution_time := qc 3 2 |}]
           (qc 9 1)).
  - reflexivity.
  - constructor.
  - reflexivity.
  - reflexivity.
Defined.

Lemma init_binds_every_task_witness :
  (evaluate scores_nine model class_body
     (__init__ class_body 3%nat research_crew (ModelName "gpt-4o")).2
     (scores_nine (sample_task "report" [] (qc 1 2)))).2 = Ok tt
  \/ (evaluate scores_nine model class_body
        (__init__ class_body 3%nat research_crew (ModelName "gpt-4o")).2
        (scores_nine (sample_task "report" [] (qc 1 2)))).2
     = Err (Raise ValueError [Lit "Evaluation result is not in the expected format"]).
Proof.
  apply (init_binds_every_task scores_nine model class_body 3%nat research_crew
           (ModelName "gpt-4o"))
    with (task := sample_task "report" ["AI LLMs Senior Researcher"] (qc 22 1)).
  - simpl. tauto.
  - reflexivity.
Defined.

Lemma evaluators_share_the_class_iteration_witness :
  let first := evaluator_of quick_crew in
  let second := evaluator_of research_crew in
  let output1 := scores_nine (sample_task "lookup" [] (qc 1 2)) in
  let output2 := scores_nine (sample_task "report" [] (qc 1 2)) in
  let middle := (evaluate scores_nine model run_zero first output1).1.1 in
  let after := (evaluate scores_nine model middle second output2).1.1 in
  exists t1 q1 t2 q2,
    pydantic (scores_nine
                (_evaluation_task first (_evaluator_agent first) t1 (raw output1)))
      = Some (TaskEvaluationPydanticOutput q1)
    /\ pydantic (scores_nine
                   (_evaluation_task second (_evaluator_agent second) t2 (raw output2)))
       = Some (TaskEvaluationPydanticOutput q2)
    /\ of_run (tasks_scores after) (iteration run_zero)
       = of_run (tasks_scores run_zero) (iteration run_zero) ++ [q1; q2]
    /\ of_run (run_execution_times after) (iteration run_zero)
       = of_run (run_execution_times run_zero) (iteration run_zero)
         ++ [_execution_time t1; _execution_time t2].
Proof.
  apply (evaluators_share_the_class_iteration scores_nine model run_zero
           (evaluator_of quick_crew) (evaluator_of research_crew)
           (scores_nine (sample_task "lookup" [] (qc 1 2)))
           (scores_nine (sample_task "report" [] (qc 1 2)))).
  - reflexivity.
  - reflexivity.
  - reflexivity.
  - reflexivity.
Defined.

Lemma print_with_empty_run_divides_by_zero_witness :
  print_crew_evaluation_result one_idle_run (evaluator_of research_crew)
  = (one_idle_run, Err division_by_zero).
Proof.
  apply (print_with_empty_run_divides_by_zero one_idle_run (evaluator_of research_crew)).
  simpl. tauto.
Defined.

Lemma print_with_missing_run_witness :
  let after :=
    {| tasks_scores := tasks_scores run_zero ++ [(1, [])];
       run_execution_times := run_execution_times run_zero;
       iteration := iteration run_zero |} in
  print_crew_evaluation_result run_zero (evaluator_of quick_crew)
    = (after, Err (Raise IndexError [Lit "list index out of range"]))
  /\ print_crew_evaluation_result after (evaluator_of quick_crew)
     = (after, Err division_by_zero).
Proof.
  apply (print_with_missing_run run_zero (evaluator_of quick_crew) [] 1 []).
  - discriminate.
  - discriminate.
  - repeat constructor. discriminate.
  - reflexivity.
  - constructor.
  - simpl. intros [Heq|[]]. discriminate.
Defined.




End EvaluatorMore.
